(** * Construction dashboard (app.py): a shallow embedding and its properties

    The program is a Streamlit script over two PostgreSQL tables that it reads
    and writes through pandas.  The embedding follows the script statement by
    statement:

    - a cell is a tagged value (null, text, integer, float, timestamp);
    - a DataFrame is an index (row labels) and an ordered list of labelled
      columns; labels may repeat, as in pandas;
    - the database is a finite map from table names to stored tables;
    - a button handler is a computation in a state-and-exception monad whose
      state holds the database, the DataFrame the handler works on (Python
      mutates it in place, so it survives an exception) and what the page
      shows to the user.

    Library behaviour is modelled as pandas 1.x/2.x and Streamlit (the
    versions that still have [st.experimental_rerun]) document it.  A text
    is a [str] held as its UTF-8 bytes; [str.strip], [str.isdigit] and [int]
    follow Unicode.  Integers are unbounded (Python [int]); a finite float
    is the exact decimal [m * 10^e]: the rounding of float64 and the wrap of
    int64 are outside the model, and a statement about a number is made only
    where pandas is exact.  What the model cannot reproduce is a parameter,
    class [Pandas], so every theorem holds for whatever these functions are:
    the parsers and printers of pandas (the date parser, [str] of a float or
    of a timestamp), and what the database returns for the columns written
    to it. *)

From Stdlib Require Import ZArith List String Ascii Bool Lia DecimalString.
From stdpp Require Import base option list gmap strings.

Local Open Scope string_scope.
Local Open Scope Z_scope.

(** ** Python text *)

(** A [str] is held as its UTF-8 bytes.  Its characters are the groups made
    of a byte that is no continuation byte and the continuation bytes that
    follow it. *)
Module Utf8.

Definition byte (a : ascii) : Z := Z.of_nat (nat_of_ascii a).

Definition is_continuation (a : ascii) : bool := (128 <=? byte a) && (byte a <? 192).

Definition continues (c : string) : bool :=
  match c with
  | String a _ => is_continuation a
  | EmptyString => false
  end.

Fixpoint chars (s : string) : list string :=
  match s with
  | EmptyString => []
  | String a s' =>
      match chars s' with
      | c :: cs => if continues c then String a c :: cs else String a EmptyString :: c :: cs
      | [] => [String a EmptyString]
      end
  end.

Definition continuation (a : ascii) : option Z :=
  if is_continuation a then Some (byte a - 128) else None.

(** A code point of at least [lo] (a shorter encoding is refused) that is no
    surrogate and not beyond U+10FFFF. *)
Definition scalar (lo c : Z) : option Z :=
  if (lo <=? c) && (c <=? 1114111) && negb ((55296 <=? c) && (c <=? 57343))
  then Some c else None.

(** The code point of one character. *)
Definition code_point (c : string) : option Z :=
  match c with
  | String a EmptyString => if byte a <? 128 then Some (byte a) else None
  | String a (String b EmptyString) =>
      if (192 <=? byte a) && (byte a <? 224) then
        x ← continuation b; scalar 128 ((byte a - 192) * 64 + x)
      else None
  | String a (String b (String b' EmptyString)) =>
      if (224 <=? byte a) && (byte a <? 240) then
        x ← continuation b; y ← continuation b';
        scalar 2048 (((byte a - 224) * 64 + x) * 64 + y)
      else None
  | String a (String b (String b' (String b'' EmptyString))) =>
      if (240 <=? byte a) && (byte a <? 248) then
        x ← continuation b; y ← continuation b'; z ← continuation b'';
        scalar 65536 ((((byte a - 240) * 64 + x) * 64 + y) * 64 + z)
      else None
  | _ => None
  end.

(** The code points of a text, when it is the UTF-8 of a [str]. *)
Definition decode (s : string) : option (list Z) := mapM code_point (chars s).

Definition concat (cs : list string) : string := foldr String.append EmptyString cs.

(** The first [n] characters. *)
Definition take_chars (n : nat) (s : string) : string := concat (take n (chars s)).

End Utf8.

(** The character classes of Unicode 14.0, the version of CPython 3.11. *)
Module Unicode.

Definition within (c : Z) (r : Z * Z) : bool := (r.1 <=? c) && (c <=? r.2).

(** White space ([str.isspace], what [str.strip()] removes). *)
Definition spaces : list (Z * Z) :=
  [(9, 13); (28, 32); (133, 133); (160, 160); (5760, 5760); (8192, 8202);
   (8232, 8233); (8239, 8239); (8287, 8287); (12288, 12288)].

Definition is_space (c : Z) : bool := existsb (within c) spaces.

(** The decimal digits come in runs of ten, zero first; these are the
    zeros. *)
Definition decimal_zeros : list Z :=
  [48; 1632; 1776; 1984; 2406; 2534; 2662; 2790; 2918; 3046; 3174; 3302;
   3430; 3558; 3664; 3792; 3872; 4160; 4240; 6112; 6160; 6470; 6608; 6784;
   6800; 6992; 7088; 7232; 7248; 42528; 43216; 43264; 43472; 43504; 43600;
   44016; 65296; 66720; 68912; 69734; 69872; 69942; 70096; 70384; 70736;
   70864; 71248; 71360; 71472; 71904; 72016; 72784; 73040; 73120; 92768;
   92864; 93008; 120782; 120792; 120802; 120812; 120822; 123200; 123632;
   125264; 130032].

(** The value of a decimal digit, which is what [int] reads. *)
Definition decimal (c : Z) : option Z :=
  (fun z => c - z) <$> find (fun z => (z <=? c) && (c <? z + 10)) decimal_zeros.

(** The digits that are no decimal digits (superscripts, subscripts, circled
    and parenthesized digits and the like): [str.isdigit] accepts them and
    [int] does not. *)
Definition other_digits : list (Z * Z) :=
  [(178, 179); (185, 185); (4969, 4977); (6618, 6618); (8304, 8304);
   (8308, 8313); (8320, 8329); (9312, 9320); (9332, 9340); (9352, 9360);
   (9450, 9450); (9461, 9469); (9471, 9471); (10102, 10110); (10112, 10120);
   (10122, 10130); (68160, 68163); (69216, 69224); (69714, 69722);
   (127232, 127242)].

Definition is_digit (c : Z) : bool :=
  match decimal c with
  | Some _ => true
  | None => existsb (within c) other_digits
  end.

End Unicode.

Module Py.

Definition is_space_char (c : string) : bool :=
  match Utf8.code_point c with
  | Some n => Unicode.is_space n
  | None => false
  end.

Fixpoint drop_while {A : Type} (p : A -> bool) (l : list A) : list A :=
  match l with
  | x :: l' => if p x then drop_while p l' else l
  | [] => []
  end.

(** [s.strip()]: [s] without its leading and its trailing white space. *)
Definition strip (s : string) : string :=
  Utf8.concat
    (reverse (drop_while is_space_char (reverse (drop_while is_space_char (Utf8.chars s))))).

(** [s.lower()] on the letters A to Z.  The script lowers a text only to
    compare it with the word "finished", and no character outside ASCII
    lowers to one of its letters; the C parser compares its words on bytes. *)
Definition lower_char (a : ascii) : ascii :=
  let n := nat_of_ascii a in
  if Nat.leb 65 n && Nat.leb n 90 then ascii_of_nat (n + 32) else a.

Fixpoint lower (s : string) : string :=
  match s with
  | EmptyString => EmptyString
  | String a s' => String (lower_char a) (lower s')
  end.

(** [str(z)] for an integer. *)
Definition str_of_int (z : Z) : string := NilZero.string_of_int (Z.to_int z).

(** [s.isdigit()]: at least one character and every character a digit. *)
Definition isdigit (s : string) : bool :=
  match Utf8.decode s with
  | Some (c :: cs) => forallb Unicode.is_digit (c :: cs)
  | _ => false
  end.

(** The values of the decimal digits a text starts with, and what follows
    them. *)
Fixpoint decimal_run (cs : list Z) : list Z * list Z :=
  match cs with
  | c :: cs' =>
      match Unicode.decimal c with
      | Some d => let '(ds, rest) := decimal_run cs' in (d :: ds, rest)
      | None => ([], cs)
      end
  | [] => ([], [])
  end.

Definition digits_value (ds : list Z) : Z := foldl (fun acc d => 10 * acc + d) 0 ds.

(** The longest run of digits [int] converts (CPython 3.11 and later, and
    the security releases of 3.7 to 3.10). *)
Definition max_str_digits : nat := 4300.

(** [int(s)] for a text that [isdigit] accepted, so one without sign, blank
    or underscore: its value, or the text of the [ValueError].  A run of more
    than 4300 decimal digits is refused, and so is a digit that is no decimal
    digit. *)
Definition int_of_digits (s : string) : Z + string :=
  let '(ds, rest) := decimal_run (default [] (Utf8.decode s)) in
  if (max_str_digits <? length ds)%nat then
    inr ("Exceeds the limit (4300 digits) for integer string conversion: value has "
         +:+ str_of_int (Z.of_nat (length ds))
         +:+ " digits; use sys.set_int_max_str_digits() to increase the limit")
  else
    match ds, rest with
    | _ :: _, [] => inl (digits_value ds)
    | _, _ =>
        inr ("invalid literal for int() with base 10: "
             +:+ Utf8.take_chars 200 ("'" +:+ s +:+ "'"))
    end.

End Py.

(** ** Cells *)

(** The three missing values pandas distinguishes when it prints them. *)
Inductive null := PyNone | NaN | NaT.

(** A float: the decimal [m * 10^e], or an infinity. *)
Inductive float64 :=
  | Finite (m e : Z)
  | Infinity (negative : bool).

Inductive value :=
  | VNull (k : null)
  | VStr (s : string)
  | VInt (z : Z)
  | VFloat (x : float64)
  | VDate (ns : Z).

Global Instance null_eq_dec : EqDecision null.
Proof. solve_decision. Defined.
Global Instance float64_eq_dec : EqDecision float64.
Proof. solve_decision. Defined.
Global Instance value_eq_dec : EqDecision value.
Proof. solve_decision. Defined.

Definition is_null (v : value) : bool :=
  match v with VNull _ => true | _ => false end.

(** What the script takes from pandas without fixing it in its own text:
    parsers and printers, and the conversions that depend on a column's
    storage type. *)
Class Pandas := {
  (** [pd.to_datetime] on one scalar that is neither null nor a timestamp
      (text through the date parser, a number as an epoch offset): the
      timestamp in nanoseconds, or [None] where the conversion fails. *)
  scalar_to_datetime : value -> option Z;
  (** [pd.to_numeric] on a timestamp ([Some ns]) or NaT ([None]): the int64
      view of a datetime64 column, or a failed conversion ([None]) for a
      timestamp object in an object column. *)
  datetime_to_numeric : option Z -> option Z;
  (** [str(x)] for a float and for a timestamp. *)
  str_float : float64 -> string;
  str_timestamp : Z -> string;
  (** The text [to_csv] writes for a timestamp. *)
  csv_timestamp : Z -> string;
  (** The columns [pd.read_sql] returns for a table whose columns [to_sql]
      wrote: the names as PostgreSQL keeps them (63 bytes at most), the
      cells as they come back from the SQL type that [to_sql] gave their
      column (a column of mixed cells is stored as text, a timestamp keeps
      its microseconds, a missing value returns as the missing value of its
      column's type). *)
  read_back : list (string * list value) -> list (string * list value);
}.

(** ** Numeric text, as [pd.to_numeric] reads it *)

Module Numeric.

(** The C parser works on bytes: its digits are 0 to 9. *)
Definition is_digit (a : ascii) : bool :=
  let n := nat_of_ascii a in Nat.leb 48 n && Nat.leb n 57.

Definition digit_value (a : ascii) : Z := Z.of_nat (nat_of_ascii a) - 48.

Fixpoint all_digits (s : string) : bool :=
  match s with
  | EmptyString => true
  | String a s' => is_digit a && all_digits s'
  end.

(** At least one byte and every byte a digit. *)
Definition digits (s : string) : bool :=
  match s with
  | EmptyString => false
  | _ => all_digits s
  end.

Fixpoint digits_value (acc : Z) (s : string) : Z :=
  match s with
  | EmptyString => acc
  | String a s' => digits_value (10 * acc + digit_value a) s'
  end.

Definition int_of_digits (s : string) : Z := digits_value 0 s.

Fixpoint span_digits (s : string) : string * string :=
  match s with
  | String a s' =>
      if is_digit a then let '(d, r) := span_digits s' in (String a d, r)
      else (EmptyString, s)
  | EmptyString => (EmptyString, EmptyString)
  end.

(** [s] without its leading, and without its trailing, bytes of the class
    [blank]. *)
Fixpoint lstrip_of (blank : ascii -> bool) (s : string) : string :=
  match s with
  | String a s' => if blank a then lstrip_of blank s' else s
  | EmptyString => EmptyString
  end.

Fixpoint rstrip_of (blank : ascii -> bool) (s : string) : string :=
  match s with
  | EmptyString => EmptyString
  | String a s' =>
      match rstrip_of blank s' with
      | EmptyString => if blank a then EmptyString else String a EmptyString
      | r => String a r
      end
  end.

(** The blanks the C parser skips on both sides of a number: the space and
    \t \n \v \f \r. *)
Definition isblank (a : ascii) : bool :=
  let n := nat_of_ascii a in
  Nat.eqb n 32 || (Nat.leb 9 n && Nat.leb n 13).

Definition trim (s : string) : string := rstrip_of isblank (lstrip_of isblank s).

Definition take_sign (s : string) : bool * string :=
  match s with
  | String "-" r => (true, r)
  | String "+" r => (false, r)
  | _ => (false, s)
  end.

Definition signed (negative : bool) (z : Z) : Z := if negative then - z else z.

(** The exponent part after [e] or [E]: an optional sign and digits, up to the
    end of the text. *)
Definition exponent (s : string) : option Z :=
  let '(neg, r) := take_sign s in
  if digits r then Some (signed neg (int_of_digits r)) else None.

Definition is_e (a : ascii) : bool :=
  Nat.eqb (nat_of_ascii a) 101 || Nat.eqb (nat_of_ascii a) 69.

(** A decimal literal between optional blanks: sign, digits, optional
    fraction, optional exponent.  Plain digits give an integer, a fraction or
    an exponent gives a float. *)
Definition decimal (s : string) : option value :=
  let '(neg, r) := take_sign (trim s) in
  let '(ip, r1) := span_digits r in
  let '(dot, fp, r2) :=
    match r1 with
    | String "." r' => let '(fp, r'') := span_digits r' in (true, fp, r'')
    | _ => (false, EmptyString, r1)
    end in
  let mant := signed neg (int_of_digits (ip +:+ fp)) in
  let scale := - Z.of_nat (String.length fp) in
  match ip +:+ fp with
  | EmptyString => None
  | _ =>
      match r2 with
      | EmptyString =>
          if dot then Some (VFloat (Finite mant scale)) else Some (VInt mant)
      | String c r3 =>
          if is_e c then
            match exponent r3 with
            | Some x => Some (VFloat (Finite mant (x + scale)))
            | None => None
            end
          else None
      end
  end.

(** The words the parser accepts besides decimal literals. *)
Definition infinity (s : string) : option value :=
  let t := Py.lower s in
  if bool_decide (t ∈ ["inf"; "+inf"; "infinity"; "+infinity"])
  then Some (VFloat (Infinity false))
  else if bool_decide (t ∈ ["-inf"; "-infinity"]) then Some (VFloat (Infinity true))
  else None.

Definition of_str (s : string) : option value :=
  match decimal s with
  | Some v => Some v
  | None => infinity s
  end.

End Numeric.

(** ** Column conversions *)

Section Conversions.
Context `{Pandas}.

(** [Series.astype(str)], cell by cell: [str(x)] of every value, the missing
    ones included. *)
Definition astype_str (v : value) : value :=
  match v with
  | VStr s => VStr s
  | VInt z => VStr (Py.str_of_int z)
  | VFloat x => VStr (str_float x)
  | VDate d => VStr (str_timestamp d)
  | VNull PyNone => VStr "None"
  | VNull NaN => VStr "nan"
  | VNull NaT => VStr "NaT"
  end.

(** [Series.fillna(d)]. *)
Definition fillna (d : value) (v : value) : value :=
  if is_null v then d else v.

(** [pd.to_numeric(s, errors="coerce")], cell by cell, with the exact number
    a cell holds.  pandas converts the column as a whole: when one cell is
    missing, not numeric or a float the column goes through float64, which
    keeps an integer up to 2^53 in magnitude as it is and rounds beyond.  The
    theorems state the number of a cell only within that range. *)
Definition to_numeric (v : value) : value :=
  match v with
  | VInt _ | VFloat _ => v
  | VStr s =>
      match Numeric.of_str s with
      | Some n => n
      | None => VNull NaN
      end
  | VNull PyNone | VNull NaN => VNull NaN
  | VNull NaT => from_option VInt (VNull NaN) (datetime_to_numeric None)
  | VDate d => from_option VInt (VNull NaN) (datetime_to_numeric (Some d))
  end.

(** [pd.to_datetime(s, errors="coerce")], cell by cell. *)
Definition to_datetime (v : value) : value :=
  match v with
  | VDate d => VDate d
  | VNull _ => VNull NaT
  | _ => from_option VDate (VNull NaT) (scalar_to_datetime v)
  end.

End Conversions.

(** ** Exceptions *)

(** [Exception cls msg] is any exception [except Exception] catches, with its
    class name and [str(e)].  Streamlit's rerun request derives from
    [BaseException]: [except Exception] lets it through. *)
Inductive exn :=
  | Exception (cls msg : string)
  | RerunException.

Inductive result (A : Type) :=
  | Ok (a : A)
  | Raise (e : exn).
Arguments Ok {A} a.
Arguments Raise {A} e.

Global Instance result_ret : MRet result := fun A a => Ok a.
Global Instance result_bind : MBind result := fun A B f m =>
  match m with
  | Ok a => f a
  | Raise e => Raise e
  end.

Definition KeyError (key : string) : exn :=
  Exception "KeyError" ("'" +:+ key +:+ "'").
Definition ValueError (msg : string) : exn := Exception "ValueError" msg.
Definition TypeError (msg : string) : exn := Exception "TypeError" msg.
Definition AttributeError (msg : string) : exn := Exception "AttributeError" msg.

(** [Series.astype(int)], cell by cell: a float is truncated toward zero, a
    missing or infinite value raises.  ([to_numeric] and [fillna(0)] leave
    integers and floats only; text and timestamps are refused here.)  A
    finite float beyond int64 does not raise either; the integer pandas makes
    of it depends on the machine, and no theorem states it. *)
Definition astype_int (v : value) : result value :=
  match v with
  | VInt z => Ok (VInt z)
  | VFloat (Finite m e) =>
      Ok (VInt (if 0 <=? e then m * 10 ^ e else Z.quot m (10 ^ (- e))))
  | VFloat (Infinity _) | VNull _ =>
      Raise (ValueError "Cannot convert non-finite values (NA or inf) to integer")
  | VStr _ | VDate _ =>
      Raise (TypeError "int() argument must be a string or a real number")
  end.

(** A whole column through a cell conversion that may raise: the first cell
    that raises decides. *)
Fixpoint traverse {A B : Type} (f : A -> result B) (l : list A) : result (list B) :=
  match l with
  | [] => Ok []
  | x :: l' =>
      match f x with
      | Raise e => Raise e
      | Ok y =>
          match traverse f l' with
          | Raise e => Raise e
          | Ok ys => Ok (y :: ys)
          end
      end
  end.

(** ** DataFrames *)

Definition column : Type := string * list value.

Record frame := Frame {
  index : list nat;        (* the row labels *)
  columns : list column;   (* the labelled columns, in order *)
}.

Definition labels (g : frame) : list string := (columns g).*1.

(** [len(df)]. *)
Definition nrows (g : frame) : nat := length (index g).

(** Every column has one cell per row. *)
Definition wf_frame (g : frame) : Prop :=
  Forall (fun col : column => length col.2 = nrows g) (columns g).

(** [df[c]]: the columns labelled [c] (a Series when there is one, a
    DataFrame when the label repeats), [KeyError] when there is none. *)
Definition select (c : string) (g : frame) : list column :=
  filter (fun col : column => col.1 = c) (columns g).

Definition getitem (c : string) (g : frame) : result (list (list value)) :=
  match select c g with
  | [] => Raise (KeyError c)
  | cols => Ok (cols.*2)
  end.

(** What a function that wants a Series does with the result of [df[c]]. *)
Definition series (e : exn) (cols : list (list value)) : result (list value) :=
  match cols with
  | [s] => Ok s
  | _ => Raise e
  end.

(** The columns, with the cells of those labelled [c] rebuilt by [h]. *)
Definition rebuild (c : string) (h : list value -> list value) (cols : list column)
    : list column :=
  fmap (fun col : column => if decide (col.1 = c) then (c, h col.2) else col) cols.

(** [df[c] = s] for a Series [s] on the frame's index: replaces the columns
    labelled [c], or appends a new last column. *)
Definition setitem (c : string) (s : list value) (g : frame) : frame :=
  if decide (c ∈ labels g) then Frame (index g) (rebuild c (fun _ => s) (columns g))
  else Frame (index g) (columns g ++ [(c, s)]).

(** [df[c] = v] for a scalar [v]. *)
Definition setitem_scalar (c : string) (v : value) (g : frame) : frame :=
  setitem c (replicate (nrows g) v) g.

(** [df[c] = f(df[c])] for a cell-wise [f] that also takes a DataFrame: every
    column labelled [c] is converted. *)
Definition map_column (c : string) (f : value -> value) (g : frame) : frame :=
  Frame (index g) (rebuild c (fmap f) (columns g)).

Definition convert_column (c : string) (f : value -> value) (g : frame) : result frame :=
  _ ← getitem c g; Ok (map_column c f g).

(** [df[c] = f(df[c])] for an [f] that takes a Series only. *)
Definition convert_series (e : exn) (c : string) (f : list value -> result (list value))
    (g : frame) : result frame :=
  cols ← getitem c g; s ← series e cols; s' ← f s; Ok (setitem c s' g).

(** [df.columns = df.columns.map(f)]. *)
Definition map_labels (f : string -> string) (g : frame) : frame :=
  Frame (index g) (fmap (fun col : column => (f col.1, col.2)) (columns g)).

(** [dict.get(k, k)] on a dict literal. *)
Fixpoint renamed (mapping : list (string * string)) (l : string) : string :=
  match mapping with
  | [] => l
  | (k, v) :: rest => if decide (k = l) then v else renamed rest l
  end.

(** [df.rename(columns=mapping, inplace=True)]. *)
Definition rename (mapping : list (string * string)) (g : frame) : frame :=
  map_labels (renamed mapping) g.

(** The cells of [l] at the positions where [keep] is true. *)
Fixpoint compress {A : Type} (keep : list bool) (l : list A) : list A :=
  match keep, l with
  | b :: keep', x :: l' => if b then x :: compress keep' l' else compress keep' l'
  | _, _ => []
  end.

(** [df.drop(label, inplace=True)]: every row labelled [label] goes. *)
Definition drop (label : nat) (g : frame) : frame :=
  let keep := fmap (fun l => negb (Nat.eqb l label)) (index g) in
  Frame (compress keep (index g))
    (fmap (fun col : column => (col.1, compress keep col.2)) (columns g)).

(** [df.drop(columns=[c], inplace=True)]. *)
Definition drop_column (c : string) (g : frame) : frame :=
  Frame (index g) (filter (fun col : column => col.1 <> c) (columns g)).

(** Where [mask] is true the new value, elsewhere the old cell. *)
Fixpoint mask_assign (mask : list bool) (v : value) (cells : list value) : list value :=
  match mask, cells with
  | b :: mask', x :: cells' => (if b then v else x) :: mask_assign mask' v cells'
  | _, _ => cells
  end.

(** [df.loc[mask, c] = v] for a boolean Series [mask] on the frame's index and
    a scalar [v].  A label that is missing is added as a new column of NaN
    before the assignment, which pandas refuses on a frame without rows.  The
    cell keeps the scalar as it was given (a float column shows the integer
    100 as 100.0, the same number). *)
Definition loc_setitem (mask : list bool) (c : string) (v : value) (g : frame) : result frame :=
  if decide (c ∈ labels g) then
    Ok (Frame (index g) (rebuild c (mask_assign mask v) (columns g)))
  else if decide (nrows g = 0%nat) then
    Raise (ValueError "cannot set a frame with no defined index and a scalar")
  else
    Ok (Frame (index g)
          (columns g ++ [(c, mask_assign mask v (replicate (nrows g) (VNull NaN)))])).

(** [s.str.lower()]: text is lowered, any other cell gives NaN. *)
Definition str_lower (v : value) : value :=
  match v with
  | VStr s => VStr (Py.lower s)
  | _ => VNull NaN
  end.

(** [s == x] for a text scalar [x]. *)
Definition eq_scalar (x : string) (v : value) : bool :=
  match v with
  | VStr s => bool_decide (s = x)
  | _ => false
  end.

(** The cell of row position [i] in the column labelled [c], when the label
    names one column. *)
Definition cell (c : string) (i : nat) (g : frame) : option value :=
  match select c g with
  | [col] => col.2 !! i
  | _ => None
  end.

(** ** The database, the page and the script's monad *)

(** A stored table, as the columns that [to_sql(index=False)] was given (the
    index is dropped).  What a later query returns for them is the
    database's part, [read_back]. *)
Record table := Table {
  trows : nat;
  tcolumns : list column;
}.

(** What the script puts on the page: status boxes, and the data editor with
    the grid it displays. *)
Inductive message :=
  | Success (text : string)
  | Error (text : string)
  | SidebarError (text : string)
  | SidebarWarning (text : string)
  | DataEditor (grid : frame).

Record state := State {
  db : gmap string table;   (* the PostgreSQL database behind the engine *)
  fault : option string;    (* the error its statements raise, if any *)
  df : frame;               (* the DataFrame at hand, mutated in place *)
  shown : list message;     (* what the page has shown so far *)
}.

Definition M (A : Type) : Type := state -> result A * state.

Global Instance M_ret : MRet M := fun A a s => (Ok a, s).
Global Instance M_bind : MBind M := fun A B f m s =>
  match m s with
  | (Ok a, s') => f a s'
  | (Raise e, s') => (Raise e, s')
  end.

Definition lift {A : Type} (r : result A) : M A := fun s => (r, s).

Definition get_df : M frame := fun s => (Ok (df s), s).

Definition put_df (g : frame) : M unit := fun s =>
  (Ok tt, State (db s) (fault s) g (shown s)).

(** An in-place update of the DataFrame at hand; when [f] raises, the frame is
    as it was. *)
Definition modify_df (f : frame -> result frame) : M unit :=
  g ← get_df; g' ← lift (f g); put_df g'.

Definition show (m : message) : M unit := fun s =>
  (Ok tt, State (db s) (fault s) (df s) (shown s ++ [m])).

(** [st.experimental_rerun()]. *)
Definition experimental_rerun {A : Type} : M A := fun s => (Raise RerunException, s).

(** [try: body / except Exception as e: handler(str(e))]. *)
Definition try_except {A : Type} (body : M A) (handler : string -> M A) : M A := fun s =>
  match body s with
  | (Raise (Exception _ msg), s') => handler msg s'
  | r => r
  end.

(** [with engine.begin() as conn: df.to_sql(name, conn, if_exists="replace",
    index=False)]: one transaction that replaces the table, or raises and
    leaves the database as it was.  Whatever makes the write fail (a lost
    connection, a frame the database refuses) is the state's [fault]. *)
Definition to_sql (name : string) (g : frame) : M unit := fun s =>
  match fault s with
  | Some msg => (Raise (Exception "SQLAlchemyError" msg), s)
  | None =>
      (Ok tt,
       State (<[name := Table (nrows g) (columns g)]> (db s)) (fault s) (df s) (shown s))
  end.

(** [pd.read_sql('SELECT * FROM "name"', engine)]: what the database returns
    for the stored columns, under a fresh index 0..n-1. *)
Definition read_sql `{Pandas} (name : string) : M frame := fun s =>
  match fault s with
  | Some msg => (Raise (Exception "SQLAlchemyError" msg), s)
  | None =>
      match db s !! name with
      | Some t => (Ok (Frame (seq 0 (trows t)) (read_back (tcolumns t))), s)
      | None =>
          (Raise (Exception "ProgrammingError" ("relation " +:+ name +:+ " does not exist")), s)
      end
  end.

(** ** CSV text, as Python's [csv.writer] produces it for [to_csv] *)

Module Csv.

Definition delimiter : ascii := ascii_of_nat 44.
Definition quotechar : ascii := ascii_of_nat 34.
Definition newline : ascii := ascii_of_nat 10.

(** The characters that make the writer quote a field (QUOTE_MINIMAL): the
    delimiter, the quote character and the characters of the line
    terminator, which is the line feed where the script is deployed. *)
Definition special (a : ascii) : bool :=
  bool_decide (a = delimiter) || bool_decide (a = quotechar) || bool_decide (a = newline).

Fixpoint has_special (s : string) : bool :=
  match s with
  | EmptyString => false
  | String a s' => special a || has_special s'
  end.

(** Every quote character is doubled. *)
Fixpoint escape (s : string) : string :=
  match s with
  | EmptyString => EmptyString
  | String a s' =>
      if bool_decide (a = quotechar) then String a (String a (escape s'))
      else String a (escape s')
  end.

Definition quoted (s : string) : string :=
  String quotechar (escape s +:+ String quotechar EmptyString).

(** One field; [alone] says that it is the only field of its record, where
    the writer quotes an empty field. *)
Definition field (alone : bool) (s : string) : string :=
  if has_special s || (alone && bool_decide (s = EmptyString)) then quoted s else s.

Fixpoint fields (alone : bool) (l : list string) : string :=
  match l with
  | [] => EmptyString
  | [f] => field alone f
  | f :: l' => field alone f +:+ String delimiter (fields alone l')
  end.

(** [writer.writerow(l)]. *)
Definition record (l : list string) : string :=
  fields (Nat.eqb (length l) 1) l +:+ String newline EmptyString.

Fixpoint write (records : list (list string)) : string :=
  match records with
  | [] => EmptyString
  | r :: rest => record r +:+ write rest
  end.

End Csv.

(** ** The script *)

Section Script.
Context `{Pandas}.

Definition timeline_mapping : list (string * string) :=
  [("activity", "Activity"); ("item", "Item"); ("task", "Task"); ("room", "Room");
   ("location", "Location"); ("notes", "Notes"); ("start_date", "Start Date");
   ("end_date", "End Date"); ("status", "Status"); ("workdays", "Workdays");
   ("progress", "Progress")].

Definition items_mapping : list (string * string) :=
  [("item", "Item"); ("quantity", "Quantity"); ("order_status", "Order Status");
   ("delivery_status", "Delivery Status"); ("notes", "Notes")].

(** [df[c] = pd.to_datetime(df[c], errors="coerce")]. *)
Definition coerce_datetime (c : string) (g : frame) : result frame :=
  convert_series
    (ValueError "to assemble mappings requires at least that [year, month, day] be specified")
    c (fun s => Ok (fmap to_datetime s)) g.

(** [df["Status"] = df["Status"].astype(str).fillna("Not Started")]. *)
Definition status_cell (v : value) : value :=
  fillna (VStr "Not Started") (astype_str v).

Definition coerce_status (g : frame) : result frame :=
  convert_column "Status" status_cell g.

(** [load_timeline_data], lines 25-49. *)
Definition load_timeline_data : M frame :=
  g ← read_sql "Contrcution_Timeline";
  let g := map_labels Py.strip g in
  let g := rename timeline_mapping g in
  g ← lift (if decide ("Start Date" ∈ labels g) then coerce_datetime "Start Date" g else Ok g);
  g ← lift (if decide ("End Date" ∈ labels g) then coerce_datetime "End Date" g else Ok g);
  g ← lift (coerce_status g);
  mret g.

(** [df[c] = pd.to_numeric(df[c], errors="coerce").fillna(0).astype(int)]. *)
Definition quantity_cell (v : value) : result value :=
  astype_int (fillna (VInt 0) (to_numeric v)).

Definition coerce_quantity (g : frame) : result frame :=
  convert_series (TypeError "arg must be a list, tuple, 1-d array, or Series")
    "Quantity" (traverse quantity_cell) g.

(** The five conversions of lines 67-71, repeated at lines 220-224. *)
Definition coerce_items (g : frame) : result frame :=
  g ← convert_column "Item" astype_str g;
  g ← coerce_quantity g;
  g ← convert_column "Order Status" astype_str g;
  g ← convert_column "Delivery Status" astype_str g;
  convert_column "Notes" astype_str g.

(** [load_items_data], lines 54-72. *)
Definition load_items_data : M frame :=
  g ← read_sql "Items_Order";
  let g := map_labels Py.strip g in
  let g := rename items_mapping g in
  lift (coerce_items g).

(** [save_timeline_data(df)], lines 77-83. *)
Definition save_timeline_data (g : frame) : M unit :=
  to_sql "Contrcution_Timeline" g;;
  show (Success "Timeline data successfully saved!");;
  experimental_rerun.

(** [save_items_data(df)], lines 85-90. *)
Definition save_items_data (g : frame) : M unit :=
  to_sql "Items_Order" g;;
  show (Success "Items table successfully saved!");;
  experimental_rerun.

(** [int(s)], line 118: its [ValueError] is raised outside every [try]. *)
Definition int (s : string) : result Z :=
  match Py.int_of_digits s with
  | inl z => Ok z
  | inr msg => Raise (ValueError msg)
  end.

(** The body of [if st.button("Delete Row (Main)")], lines 117-128, on
    [df_main] and the text of the index box. *)
Definition delete_row_main (delete_index : string) : M unit :=
  if Py.isdigit delete_index then
    idx ← lift (int delete_index);
    g ← get_df;
    if bool_decide (0 <= idx < Z.of_nat (nrows g)) then
      put_df (drop (nth (Z.to_nat idx) (index g) 0%nat) g);;
      try_except (g ← get_df; save_timeline_data g)
        (fun e => show (SidebarError ("Error saving data: " +:+ e)))
    else show (SidebarError "Invalid index.")
  else show (SidebarError "Please enter a valid integer index.").

(** The body of [if st.button("Add Column (Main)")], lines 134-149, on
    [df_main], the text of the name box and the selected type.  (Line 137,
    [astype(object)] on the new text column, changes no cell.) *)
Definition add_column_main (new_col_name new_col_type : string) : M unit :=
  g ← get_df;
  if bool_decide (new_col_name <> EmptyString /\ new_col_name ∉ labels g) then
    (if decide (new_col_type = "string") then
       put_df (setitem_scalar new_col_name (VStr EmptyString) g)
     else if decide (new_col_type = "integer") then
       put_df (setitem_scalar new_col_name (VInt 0) g)
     else if decide (new_col_type = "float") then
       put_df (setitem_scalar new_col_name (VFloat (Finite 0 0)) g)
     else if decide (new_col_type = "datetime") then
       put_df (setitem_scalar new_col_name (VNull NaT) g)
     else mret tt);;
    try_except (g ← get_df; save_timeline_data g)
      (fun e => show (SidebarError ("Error saving data: " +:+ e)))
  else show (SidebarWarning "Column already exists or invalid name.").

(** The body of [if st.button("Delete Column (Main)")], lines 158-165. *)
Definition delete_column_main (col_to_delete : string) : M unit :=
  g ← get_df;
  if bool_decide (col_to_delete <> EmptyString /\ col_to_delete ∈ labels g) then
    put_df (drop_column col_to_delete g);;
    try_except (g ← get_df; save_timeline_data g)
      (fun e => show (SidebarError ("Error saving data: " +:+ e)))
  else show (SidebarWarning "Please select a valid column.").

(** Lines 200-201, on the frame the data editor returned. *)
Definition coerce_edited_status (g : frame) : frame :=
  if decide ("Status" ∈ labels g) then map_column "Status" status_cell g else g.

(** [st.data_editor(df, ...)]: the page shows the grid with the edits the
    widget holds, and the call returns that grid as a DataFrame of its own.
    [edited] is that grid, the user's part in the run. *)
Definition data_editor (edited : frame) : M frame :=
  show (DataEditor edited);; mret edited.

(** Line 204:
    [df.loc[df["Status"].str.lower() == "finished", "Progress"] = 100].
    ([.str] wants a text column, which line 201 has made of Status.) *)
Definition force_finished_progress (g : frame) : result frame :=
  cols ← getitem "Status" g;
  s ← series (AttributeError "'DataFrame' object has no attribute 'str'") cols;
  loc_setitem (fmap (fun v => eq_scalar "finished" (str_lower v)) s) "Progress" (VInt 100) g.

(** The body of [if st.button("Save Updates (Main Timeline)")], lines
    204-208, on [edited_df_main]. *)
Definition save_updates_main : M unit :=
  modify_df force_finished_progress;;
  try_except (g ← get_df; save_timeline_data g)
    (fun e => show (Error ("Error saving main timeline: " +:+ e))).

(** Lines 192-208: the editor of the main timeline, the Status conversion and
    the Save Updates button, which the user pressed in this run or not. *)
Definition timeline_editor (edited : frame) (save_pressed : bool) : M unit :=
  edited_df_main ← data_editor edited;
  put_df (coerce_edited_status edited_df_main);;
  if save_pressed then save_updates_main else mret tt.

(** Lines 216-224: the Items frame handed to the data editor. *)
Definition needed_cols : list string :=
  ["Item"; "Quantity"; "Order Status"; "Delivery Status"; "Notes"].

Definition backfill (g : frame) (needed_col : string) : frame :=
  if decide (needed_col ∈ labels g) then g
  else setitem_scalar needed_col (VStr EmptyString) g.

Definition items_frame : M frame :=
  df_items ← load_items_data;
  lift (coerce_items (foldl backfill df_items needed_cols)).

(** The body of [if st.button("Save Items Table")], lines 243-247, on
    [edited_df_items]. *)
Definition save_items_table : M unit :=
  try_except
    (modify_df coerce_quantity;; g ← get_df; save_items_data g)
    (fun e => show (Error ("Error saving items table: " +:+ e))).

(** [df.to_csv(buffer, index=False)]: the text of one cell (a missing value
    is written as the empty text), the cells of one row, and the whole text,
    a header record and one record per row. *)
Definition csv_cell (v : value) : string :=
  match v with
  | VNull _ => EmptyString
  | VStr s => s
  | VInt z => Py.str_of_int z
  | VFloat x => str_float x
  | VDate d => csv_timestamp d
  end.

Definition row (i : nat) (g : frame) : list value :=
  (fun col : column => nth i col.2 (VNull NaN)) <$> columns g.

Definition to_csv (g : frame) : string :=
  Csv.write (labels g :: ((fun i => csv_cell <$> row i g) <$> seq 0 (nrows g))).

(** Lines 249-250 and the [data] of the download button, on
    [edited_df_items]. *)
Definition export_csv : M string :=
  g ← get_df; mret (to_csv g).

End Script.

(** * Words of the specification *)

(** Two texts are equal case-insensitively. *)
Definition eq_nocase (a b : string) : bool := bool_decide (Py.lower a = Py.lower b).

(** A row is finished when its Status is the text "Finished" in any case. *)
Definition is_finished (status : value) : bool :=
  match status with
  | VStr t => eq_nocase t "Finished"
  | _ => false
  end.

(** The column kinds the Add Column control offers (line 132) and the zero
    value the specification gives each. *)
Inductive kind := KString | KInteger | KFloat | KDatetime.

Definition kind_name (k : kind) : string :=
  match k with
  | KString => "string"
  | KInteger => "integer"
  | KFloat => "float"
  | KDatetime => "datetime"
  end.

Definition zero_value (k : kind) : value :=
  match k with
  | KString => VStr EmptyString
  | KInteger => VInt 0
  | KFloat => VFloat (Finite 0 0)
  | KDatetime => VNull NaT
  end.

(** The NUL byte, where a C string ends. *)
Definition nul : ascii := ascii_of_nat 0.

(** A Quantity cell that holds no number: a missing value ([None] or NaN),
    or text that does not read as a number (the empty text is one).  A text
    with a NUL byte is left out: the parser of pandas reads a C string. *)
Definition non_numeric (v : value) : Prop :=
  v = VNull PyNone \/ v = VNull NaN
  \/ exists s, v = VStr s /\ Numeric.of_str s = None /\ nul ∉ list_ascii_of_string s.

(** A Quantity cell that holds the integer [n], as a number or as text. *)
Definition holds_integer (v : value) (n : Z) : Prop :=
  v = VInt n \/ exists s, v = VStr s /\ Numeric.of_str s = Some (VInt n).

(** The integers float64 holds exactly.  pandas converts a column that has a
    missing or non-numeric cell, or a float, through float64, and every
    integer of this range comes out of it as it went in. *)
Definition exact (n : Z) : Prop := - 2 ^ 53 <= n <= 2 ^ 53.

(** An integer cell that fits int64, as every cell of an integer column of
    pandas does. *)
Definition fits_int64 (v : value) : Prop :=
  forall n, v = VInt n -> - 2 ^ 63 <= n < 2 ^ 63.

(** What the Quantity conversion makes of a cell: an integer, 0 for a cell
    without a number, the integer itself (its sign included) for a cell that
    holds one of the exact range. *)
Definition coerced (v v' : value) : Prop :=
  exists z, v' = VInt z
    /\ (non_numeric v -> z = 0)
    /\ (forall n, holds_integer v n -> exact n -> z = n).

(** A column label that the loaders leave as it is: nothing to trim, and no
    storage name of the renaming table. *)
Definition plain_label (mapping : list (string * string)) (l : string) : Prop :=
  Py.strip l = l /\ renamed mapping l = l.

(** Cells that already have the type the loader gives their column. *)
Definition is_text (v : value) : Prop := exists s, v = VStr s.
Definition is_timestamp (v : value) : Prop := v = VNull NaT \/ exists d, v = VDate d.
Definition is_integer (v : value) : Prop := exists z, v = VInt z.

(** Every column labelled [c] holds cells of the kind [P] only. *)
Definition typed_as (P : value -> Prop) (c : string) (cols : list column) : Prop :=
  forall x, (c, x) ∈ cols -> Forall P x.

Definition typed_timeline (cols : list column) : Prop :=
  typed_as is_text "Status" cols
  /\ typed_as is_timestamp "Start Date" cols
  /\ typed_as is_timestamp "End Date" cols.

Definition typed_items (cols : list column) : Prop :=
  typed_as is_text "Item" cols
  /\ typed_as is_integer "Quantity" cols
  /\ typed_as is_text "Order Status" cols
  /\ typed_as is_text "Delivery Status" cols
  /\ typed_as is_text "Notes" cols.

Global Instance plain_label_dec mapping l : Decision (plain_label mapping l).
Proof. unfold plain_label. apply _. Defined.

Global Instance fits_int64_dec v : Decision (fits_int64 v).
Proof.
  unfold fits_int64. destruct v as [k|s|z|x|d];
    try (left; intros n Hn; discriminate).
  destruct (decide (- 2 ^ 63 <= z < 2 ^ 63)) as [Hz|Hz].
  - left. intros n [= <-]. exact Hz.
  - right. intros Hall. apply Hz. now apply Hall.
Defined.

Section Words.
Context `{Pandas}.

(** The stored table as a loader sees it after its lines 29 and 43 (58 and
    66): what the database returns for it under a fresh index, the labels
    trimmed and renamed. *)
Definition source_frame (mapping : list (string * string)) (t : table) : frame :=
  rename mapping
    (map_labels Py.strip (Frame (seq 0 (trows t)) (read_back (tcolumns t)))).

(** Columns that the database returns as they were written: names it does
    not shorten, and in every column cells of the one kind its SQL type
    holds (for a timestamp, whole microseconds). *)
Definition returned_as_written (cols : list column) : Prop := read_back cols = cols.

Global Instance returned_as_written_dec cols : Decision (returned_as_written cols).
Proof. unfold returned_as_written. apply _. Defined.

(** A Quantity cell whose number, if it has one, is not an infinity. *)
Definition finite_quantity (v : value) : Prop :=
  forall neg, to_numeric v <> VFloat (Infinity neg).

(** The columns a timeline load makes of the source's: Start Date and End
    Date through [to_datetime], Status through [astype(str)] and [fillna]. *)
Definition timeline_columns (cols : list column) : list column :=
  rebuild "Status" (fmap status_cell)
    (rebuild "End Date" (fmap to_datetime)
       (rebuild "Start Date" (fmap to_datetime) cols)).

(** The columns an Items load makes of the source's, given the converted
    Quantity cells [q']: the four text columns through [astype(str)]. *)
Definition items_columns (q' : list value) (cols : list column) : list column :=
  rebuild "Notes" (fmap astype_str)
    (rebuild "Delivery Status" (fmap astype_str)
       (rebuild "Order Status" (fmap astype_str)
          (rebuild "Quantity" (fun _ => q')
             (rebuild "Item" (fmap astype_str) cols)))).

End Words.

(** ** Reading CSV text back *)

Module CsvReader.

(** Where the reader stands: at the start of a field, inside a plain field,
    inside a quoted field, or just after a quote character met inside a
    quoted field (the end of the field, or the first half of a doubled
    quote). *)
Inductive position := AtStart | InPlain | InQuoted | AfterQuote.

Definition snoc (s : string) (a : ascii) : string := s +:+ String a EmptyString.

(** The records of a text: fields are separated by the delimiter, records
    are ended by the line terminator, a field may stand in quotes, where a
    doubled quote is one quote character.  [field] is the part of the current
    field read so far and [rec] the fields of the current record before it. *)
Fixpoint read (p : position) (field : string) (rec : list string) (s : string)
    : list (list string) :=
  match s with
  | EmptyString =>
      match p, rec with
      | AtStart, [] => []
      | _, _ => [(rec ++ [field])%list]
      end
  | String a s' =>
      let end_field := read AtStart EmptyString (rec ++ [field])%list s' in
      let end_record := (rec ++ [field])%list :: read AtStart EmptyString [] s' in
      match p with
      | AtStart =>
          if bool_decide (a = Csv.quotechar) then read InQuoted EmptyString rec s'
          else if bool_decide (a = Csv.delimiter) then end_field
          else if bool_decide (a = Csv.newline) then end_record
          else read InPlain (snoc field a) rec s'
      | InPlain =>
          if bool_decide (a = Csv.delimiter) then end_field
          else if bool_decide (a = Csv.newline) then end_record
          else read InPlain (snoc field a) rec s'
      | InQuoted =>
          if bool_decide (a = Csv.quotechar) then read AfterQuote field rec s'
          else read InQuoted (snoc field a) rec s'
      | AfterQuote =>
          if bool_decide (a = Csv.quotechar) then read InQuoted (snoc field a) rec s'
          else if bool_decide (a = Csv.delimiter) then end_field
          else if bool_decide (a = Csv.newline) then end_record
          else read InPlain (snoc field a) rec s'
      end
  end.

Definition records (s : string) : list (list string) := read AtStart EmptyString [] s.

End CsvReader.

(** ** A sample of the library parameters *)

(** An instance of the parameters to run the script on samples.  The samples
    hold no float to print and no timestamp to parse or print, so what they
    show does not depend on those choices; the database of the instance
    follows PostgreSQL on names, timestamps, missing values and columns of
    mixed cells. *)
Module Sample.

Definition str_float (x : float64) : string :=
  match x with
  | Finite m e => Py.str_of_int m +:+ "e" +:+ Py.str_of_int e
  | Infinity neg => if neg then "-inf" else "inf"
  end.

(** The characters of a name that fit in [room] bytes. *)
Fixpoint fit (room : nat) (cs : list string) : list string :=
  match cs with
  | c :: cs' =>
      if (String.length c <=? room)%nat then c :: fit (room - String.length c) cs'
      else []
  | [] => []
  end.

(** PostgreSQL keeps 63 bytes of a name. *)
Definition sql_name (l : string) : string := Utf8.concat (fit 63 (Utf8.chars l)).

Definition is_number (v : value) : bool :=
  match v with VInt _ | VFloat _ => true | _ => false end.

Definition is_date (v : value) : bool :=
  match v with VDate _ => true | _ => false end.

(** The cells a column comes back with.  A column without a value returns
    [None] everywhere; a column of timestamps keeps whole microseconds, with
    NaT where a value is missing; a column of numbers returns them, with NaN
    where a value is missing; any other column was stored as text and returns
    the text of every value. *)
Definition sql_cells (cells : list value) : list value :=
  if forallb is_null cells then (fun _ => VNull PyNone) <$> cells
  else if forallb (fun v => is_null v || is_date v) cells then
    (fun v => match v with VDate ns => VDate (1000 * (ns / 1000)) | _ => VNull NaT end)
      <$> cells
  else if forallb (fun v => is_null v || is_number v) cells then
    (fun v => match v with VNull _ => VNull NaN | _ => v end) <$> cells
  else
    (fun v =>
       match v with
       | VNull _ => VNull PyNone
       | VStr s => VStr s
       | VInt z => VStr (Py.str_of_int z)
       | VFloat x => VStr (str_float x)
       | VDate ns => VStr (Py.str_of_int ns)
       end) <$> cells.

Definition read_back (cols : list column) : list column :=
  (fun col : column => (sql_name col.1, sql_cells col.2)) <$> cols.

End Sample.

Definition sample_pandas : Pandas := {|
  scalar_to_datetime := fun v => match v with VInt z => Some z | _ => None end;
  datetime_to_numeric := fun d => d;
  str_float := Sample.str_float;
  str_timestamp := Py.str_of_int;
  csv_timestamp := Py.str_of_int;
  read_back := Sample.read_back;
|}.

(** * Sample pages *)

(** A page that starts with the database [tables], no fault, and the frame
    [g] at hand. *)
Definition page (tables : gmap string table) (g : frame) : state :=
  State tables None g [].

(** The frame at hand before the script has loaded one. *)
Definition no_frame : frame := Frame [] [].

(** A timeline frame as the data editor returns it. *)
Definition edited_timeline : frame :=
  Frame [0; 1; 2]%nat
    [("Task", [VStr "Pour slab"; VStr "Frame walls"; VStr "Roof"]);
     ("Status", [VStr "FINISHED"; VStr "In Progress"; VStr "finished"]);
     ("Progress", [VInt 40; VInt 20; VNull NaN])].

(** An edit that sets a finished row to 50 percent, and the frame at hand
    once line 204 has run on it. *)
Definition finished_at_50 : frame :=
  Frame [0]%nat [("Status", [VStr "Finished"]); ("Progress", [VInt 50])].

Definition finished_at_100 : frame :=
  Frame [0]%nat [("Status", [VStr "Finished"]); ("Progress", [VInt 100])].

(** A stored timeline table with a missing Status and no other column. *)
Definition status_only : gmap string table :=
  {[ "Contrcution_Timeline" := Table 2 [("status", [VStr "Delayed"; VNull PyNone])] ]}.

(** A stored timeline table without the activity column. *)
Definition partial_timeline : gmap string table :=
  {[ "Contrcution_Timeline" :=
       Table 1 [("task", [VStr "Roof"]); ("status", [VStr "Delayed"]);
                ("progress", [VInt 10])] ]}.

(** The display columns the timeline is expected to have: the labels the
    renaming table gives. *)
Definition timeline_display_columns : list string := timeline_mapping.*2.

(** The Quantity cells of the specification's example, as stored text. *)
Definition items_table : table :=
  Table 4
    [("item", [VStr "Cement"; VStr "Nails"; VStr "Sand"; VStr "Tiles"]);
     ("quantity", [VStr "5"; VStr "abc"; VStr "-2"; VStr ""]);
     ("order_status", [VStr "Ordered"; VStr "Not Ordered"; VStr "Ordered"; VNull PyNone]);
     ("delivery_status", [VStr "Delivered"; VStr "Delayed"; VStr "Delayed"; VNull PyNone]);
     (" notes ", [VStr ""; VStr "urgent"; VNull PyNone; VNull PyNone])].

Definition stored_items : gmap string table := {[ "Items_Order" := items_table ]}.

(** What the Items loader makes of it. *)
Definition loaded_items : frame :=
  Frame [0; 1; 2; 3]%nat
    [("Item", [VStr "Cement"; VStr "Nails"; VStr "Sand"; VStr "Tiles"]);
     ("Quantity", [VInt 5; VInt 0; VInt (-2); VInt 0]);
     ("Order Status", [VStr "Ordered"; VStr "Not Ordered"; VStr "Ordered"; VStr "None"]);
     ("Delivery Status", [VStr "Delivered"; VStr "Delayed"; VStr "Delayed"; VStr "None"]);
     ("Notes", [VStr ""; VStr "urgent"; VStr "None"; VStr "None"])].

(** An Items table without the notes column: the loader raises at line 71,
    and so does the script at line 216, before its backfill. *)
Definition items_without_notes : gmap string table :=
  {[ "Items_Order" :=
       Table 1 [("item", [VStr "Cement"]); ("quantity", [VInt 3]);
                ("order_status", [VStr "Ordered"]);
                ("delivery_status", [VStr "Delayed"])] ]}.

(** A timeline frame with a column whose name starts with a blank, as Add
    Column makes one from the name the user typed. *)
Definition spaced : frame :=
  Frame [0]%nat [("Status", [VStr "Delayed"]); (" x", [VStr EmptyString])].

(** The Items frame of the specification's export scenario. *)
Definition items_grid : frame :=
  Frame [0; 1]%nat
    [("Item", [VStr "Cement"; VStr "Nails"]);
     ("Quantity", [VInt 10; VInt 0]);
     ("Order Status", [VStr "Ordered"; VStr "Not Ordered"]);
     ("Delivery Status", [VStr "Delivered"; VStr "Not Delivered"]);
     ("Notes", [VStr EmptyString; VStr "urgent"])].

(** One line of text. *)
Definition line (s : string) : string := s +:+ String Csv.newline EmptyString.

(** An edited Items frame whose Quantity cells the editor left as text, a
    missing value and a float. *)
Definition edited_items : frame :=
  Frame [0; 1; 2]%nat
    [("Item", [VStr "Cement"; VStr "Nails"; VStr "Sand"]);
     ("Quantity", [VStr "12"; VNull PyNone; VFloat (Finite 75 (-1))]);
     ("Order Status", [VStr "Ordered"; VStr "Not Ordered"; VStr "Ordered"]);
     ("Delivery Status", [VStr "Delivered"; VStr "Delayed"; VStr "Delayed"]);
     ("Notes", [VStr EmptyString; VStr "urgent"; VStr EmptyString])].


(** A grid without a Status column, as the data editor returns it once the
    column has been deleted from the frame at hand. *)
Definition timeline_without_status : frame :=
  Frame [0; 1]%nat
    [("Task", [VStr "Pour slab"; VStr "Roof"]); ("Progress", [VInt 40; VInt 100])].

(** What the timeline loader makes of [partial_timeline]. *)
Definition loaded_partial_timeline : frame :=
  Frame [0]%nat
    [("Task", [VStr "Roof"]); ("Status", [VStr "Delayed"]); ("Progress", [VInt 10])].

(** The Items table of [items_without_notes]. *)
Definition items_table_without_notes : table :=
  Table 1 [("item", [VStr "Cement"]); ("quantity", [VInt 3]);
           ("order_status", [VStr "Ordered"]);
           ("delivery_status", [VStr "Delayed"])].

(** An edited Items frame with an infinite Quantity. *)
Definition infinite_quantity : frame :=
  Frame [0]%nat [("Item", [VStr "Sand"]); ("Quantity", [VStr "inf"])].

(** The text of the superscript two, U+00B2: a digit for [str.isdigit], no
    decimal digit for [int]. *)
Definition superscript_two : string :=
  String (ascii_of_nat 194) (String (ascii_of_nat 178) EmptyString).

(** The Arabic-Indic digit three, U+0663, which [int] reads as 3. *)
Definition arabic_three : string :=
  String (ascii_of_nat 217) (String (ascii_of_nat 163) EmptyString).

(** A timeline frame with a start date that has nanoseconds, 1970-01-01
    00:00:00.020240105. *)
Definition dated_timeline : frame :=
  Frame [0]%nat [("Status", [VStr "Delayed"]); ("Start Date", [VDate 20240105])].

(** A grid whose Progress column holds text, with a finished row. *)
Definition text_progress : frame :=
  Frame [0; 1]%nat
    [("Status", [VStr "Finished"; VStr "Delayed"]);
     ("Progress", [VStr "50"; VStr "x"])].
(** * Properties *)

(** ** Running the monad *)

Lemma bind_raise {A B : Type} (m : M A) (f : A -> M B) (s s' : state) (e : exn) :
  m s = (Raise e, s') -> (m ≫= f) s = (Raise e, s').
Proof. intros E. unfold mbind, M_bind. now rewrite E. Qed.

Ltac run :=
  unfold save_timeline_data, save_items_data, modify_df, get_df, put_df, show,
    to_sql, read_sql, lift, experimental_rerun, try_except,
    mbind, mret, M_bind, M_ret, result_bind, result_ret in *;
  simpl in *.

(** A decidable statement about closed terms, by evaluation. *)
Ltac by_computation := apply (bool_decide_unpack _); vm_compute; exact I.

(** ** Columns of a frame *)

Lemma rebuild_labels c h cols : (rebuild c h cols).*1 = cols.*1.
Proof.
  unfold rebuild. induction cols as [|[l x] cols IH]; [reflexivity |].
  rewrite !fmap_cons, IH. f_equal. simpl. now destruct (decide (l = c)).
Qed.

Lemma rebuild_absent c h cols : c ∉ cols.*1 -> rebuild c h cols = cols.
Proof.
  unfold rebuild. induction cols as [|[l x] cols IH]; csimpl; intros Hc; [reflexivity |].
  apply not_elem_of_cons in Hc as [Hne Hc].
  rewrite decide_False by congruence. now rewrite IH.
Qed.

Lemma filter_rebuild_same c h cols :
  filter (fun col : column => col.1 = c) (rebuild c h cols)
  = fmap (fun col : column => (c, h col.2)) (filter (fun col : column => col.1 = c) cols).
Proof.
  unfold rebuild. induction cols as [|[l x] cols IH]; csimpl; [reflexivity |].
  destruct (decide (l = c)) as [->|Hne].
  - rewrite !filter_cons_True by reflexivity. simpl. now rewrite IH.
  - rewrite !filter_cons_False by (simpl; congruence). exact IH.
Qed.

Lemma filter_rebuild_other c c' h cols :
  c' <> c ->
  filter (fun col : column => col.1 = c') (rebuild c h cols)
  = filter (fun col : column => col.1 = c') cols.
Proof.
  intros Hne. unfold rebuild. induction cols as [|[l x] cols IH]; csimpl; [reflexivity |].
  destruct (decide (l = c)) as [->|Hl].
  - rewrite !filter_cons_False by (simpl; congruence). exact IH.
  - destruct (decide (l = c')) as [->|Hl'].
    + rewrite !filter_cons_True by reflexivity. now rewrite IH.
    + rewrite !filter_cons_False by (simpl; congruence). exact IH.
Qed.

Lemma rebuild_idemp c h cols :
  (forall x, h (h x) = h x) -> rebuild c h (rebuild c h cols) = rebuild c h cols.
Proof.
  intros Hh. unfold rebuild. induction cols as [|[l x] cols IH]; csimpl; [reflexivity |].
  rewrite IH. destruct (decide (l = c)) as [->|Hl]; simpl.
  - rewrite decide_True by reflexivity. now rewrite Hh.
  - now rewrite decide_False by exact Hl.
Qed.

Lemma select_elem_of c g col cols : select c g = col :: cols -> c ∈ labels g.
Proof.
  unfold select, labels. intros E.
  assert (Hin : col ∈ filter (fun col : column => col.1 = c) (columns g)).
  { rewrite E. left. }
  apply list_elem_of_filter in Hin as [Hc Hin]. subst c.
  apply list_elem_of_fmap. eauto.
Qed.

Lemma rebuild_typed (P : value -> Prop) c f cols :
  typed_as P c cols -> (forall v, P v -> f v = v) -> rebuild c (fmap f) cols = cols.
Proof.
  intros Htyped Hf. unfold rebuild.
  rewrite <- (list_fmap_id cols) at 2. apply list_fmap_ext. intros i [l x] Hi. simpl.
  destruct (decide (l = c)) as [->|]; [| reflexivity]. f_equal.
  rewrite <- (list_fmap_id x) at 2. apply Forall_fmap_ext_1.
  eapply Forall_impl; [| exact Hf].
  apply Htyped. eapply list_elem_of_lookup_2. exact Hi.
Qed.

Lemma rebuild_same c x cols :
  filter (fun col : column => col.1 = c) cols = [(c, x)] ->
  rebuild c (fun _ => x) cols = cols.
Proof.
  intros Hsel. unfold rebuild.
  rewrite <- (list_fmap_id cols) at 2. apply list_fmap_ext. intros i [l y] Hi. simpl.
  destruct (decide (l = c)) as [->|]; [| reflexivity].
  assert (Hin : (c, y) ∈ filter (fun col : column => col.1 = c) cols).
  { apply list_elem_of_filter. split; [reflexivity |].
    eapply list_elem_of_lookup_2. exact Hi. }
  rewrite Hsel in Hin. apply list_elem_of_singleton in Hin. congruence.
Qed.

Lemma wf_select_length g c x :
  wf_frame g -> select c g = [(c, x)] -> length x = nrows g.
Proof.
  unfold wf_frame, select. intros Hwf Hs.
  assert (Hin : (c, x) ∈ filter (fun col : column => col.1 = c) (columns g)).
  { rewrite Hs. left. }
  apply list_elem_of_filter in Hin as [_ Hin].
  eapply Forall_forall in Hwf; [| exact Hin]. exact Hwf.
Qed.

Lemma mask_assign_lookup mask v cells i :
  length mask = length cells ->
  mask_assign mask v cells !! i
  = match mask !! i with Some true => Some v | _ => cells !! i end.
Proof.
  revert cells i. induction mask as [|b mask IH]; intros [|x cells] i Hlen;
    simpl in *; try discriminate; [reflexivity |].
  destruct i as [|i]; simpl.
  - now destruct b.
  - apply IH. lia.
Qed.

Lemma mask_assign_idemp mask v cells :
  mask_assign mask v (mask_assign mask v cells) = mask_assign mask v cells.
Proof.
  revert cells. induction mask as [|b mask IH]; intros [|x cells]; simpl; try reflexivity.
  rewrite IH. now destruct b.
Qed.

Lemma finished_mask st : eq_scalar "finished" (str_lower st) = is_finished st.
Proof. destruct st; reflexivity. Qed.

Lemma select_app c idx cols cols' :
  select c (Frame idx (cols ++ cols'))
  = (select c (Frame idx cols) ++ select c (Frame idx cols'))%list.
Proof. unfold select. simpl. apply filter_app. Qed.

Lemma select_single c g l x : select c g = [(l, x)] -> l = c.
Proof.
  unfold select. intros E.
  assert (Hin : (l, x) ∈ filter (fun col : column => col.1 = c) (columns g)).
  { rewrite E. left. }
  now apply list_elem_of_filter in Hin as [Hc _].
Qed.

Lemma select_setitem c s g :
  c ∈ labels g ->
  select c (setitem c s g) = (fun col : column => (c, s)) <$> select c g.
Proof.
  intros Hin. unfold setitem. rewrite decide_True by exact Hin.
  unfold select. simpl. apply filter_rebuild_same.
Qed.

Lemma select_unique c g :
  NoDup (labels g) -> c ∈ labels g -> exists x, select c g = [(c, x)].
Proof.
  unfold select, labels. induction (columns g) as [|[l x] cols IH]; csimpl.
  - intros _ Hin. inversion Hin.
  - intros Hnd Hin. apply NoDup_cons in Hnd as [Hl Hnd].
    destruct (decide (l = c)) as [->|Hne].
    + rewrite filter_cons_True by reflexivity. exists x. f_equal.
      clear -Hl. induction cols as [|[l' x'] cols IH]; csimpl in *; [reflexivity |].
      apply not_elem_of_cons in Hl as [Hne Hl].
      rewrite filter_cons_False by (simpl; congruence). auto.
    + rewrite filter_cons_False by (simpl; congruence).
      apply elem_of_cons in Hin as [->|Hin]; [congruence |]. auto.
Qed.

Lemma rebuild_const_unique c h x cols :
  filter (fun col : column => col.1 = c) cols = [(c, x)] ->
  rebuild c (fun _ => h x) cols = rebuild c h cols.
Proof.
  intros Hsel. unfold rebuild. apply list_fmap_ext. intros i [l y] Hi. simpl.
  destruct (decide (l = c)) as [->|]; [| reflexivity].
  assert (Hin : (c, y) ∈ filter (fun col : column => col.1 = c) cols).
  { apply list_elem_of_filter. split; [reflexivity |].
    eapply list_elem_of_lookup_2. exact Hi. }
  rewrite Hsel in Hin. apply list_elem_of_singleton in Hin. congruence.
Qed.

Lemma convert_column_ok c f g :
  c ∈ labels g -> convert_column c f g = Ok (map_column c f g).
Proof.
  intros Hin. unfold convert_column, getitem.
  destruct (select c g) eqn:Hs; [| reflexivity].
  exfalso. unfold select in Hs. unfold labels in Hin.
  apply list_elem_of_fmap in Hin as ([l x] & -> & Hin).
  assert (H' : (l, x) ∈ filter (fun col : column => col.1 = (l, x).1) (columns g)).
  { apply list_elem_of_filter. split; [reflexivity | exact Hin]. }
  rewrite Hs in H'. inversion H'.
Qed.

Lemma convert_column_inv c f g g' :
  convert_column c f g = Ok g' -> c ∈ labels g /\ g' = map_column c f g.
Proof.
  unfold convert_column, getitem.
  destruct (select c g) as [|col cols] eqn:Hs; simpl; [discriminate |].
  intros [= <-]. split; [| reflexivity]. eapply select_elem_of. exact Hs.
Qed.

Lemma labels_map_column c f g : labels (map_column c f g) = labels g.
Proof. unfold labels, map_column. simpl. apply rebuild_labels. Qed.

Lemma select_map_column_other c c' f g :
  c' <> c -> select c' (map_column c f g) = select c' g.
Proof. intros Hne. unfold select, map_column. simpl. now apply filter_rebuild_other. Qed.

Lemma labels_setitem c x g : c ∈ labels g -> labels (setitem c x g) = labels g.
Proof.
  intros Hin. unfold setitem. rewrite decide_True by exact Hin.
  unfold labels. simpl. apply rebuild_labels.
Qed.

Lemma ok_bind {A B : Type} (a : A) (f : A -> result B) : (Ok a ≫= f) = f a.
Proof. reflexivity. Qed.

Lemma loc_setitem_frame mask c v g g' :
  loc_setitem mask c v g = Ok g' ->
  index g' = index g
  /\ (forall c', c' <> c -> select c' g' = select c' g)
  /\ loc_setitem mask c v g' = Ok g'.
Proof.
  unfold loc_setitem. destruct (decide (c ∈ labels g)) as [Hin|Hout].
  - intros [= <-]. simpl. split; [reflexivity |]. split.
    + intros c' Hc'. unfold select. simpl. now apply filter_rebuild_other.
    + unfold labels. simpl. rewrite rebuild_labels.
      rewrite decide_True by exact Hin.
      rewrite rebuild_idemp by apply mask_assign_idemp. reflexivity.
  - destruct (decide (nrows g = 0%nat)) as [|Hrows]; [discriminate |].
    intros [= <-]. simpl. split; [reflexivity |]. split.
    + intros c' Hc'. destruct g as [idx cols]. simpl. rewrite select_app.
      unfold select at 2. simpl. rewrite filter_cons_False by (simpl; congruence).
      rewrite filter_nil. apply app_nil_r.
    + unfold labels. simpl. rewrite fmap_app. simpl.
      rewrite decide_True by (apply elem_of_app; right; left).
      f_equal. f_equal. unfold rebuild. rewrite fmap_app. simpl.
      rewrite decide_True by reflexivity. rewrite mask_assign_idemp.
      f_equal. apply (rebuild_absent c). exact Hout.
Qed.

Lemma traverse_Forall2 {A B : Type} (f : A -> result B) (l : list A) (l' : list B) :
  traverse f l = Ok l' -> Forall2 (fun x y => f x = Ok y) l l'.
Proof.
  revert l'. induction l as [|x l IH]; simpl; intros l'.
  - intros [= <-]. constructor.
  - destruct (f x) as [y|] eqn:Hx; [| discriminate].
    destruct (traverse f l) as [ys|]; [| discriminate].
    intros [= <-]. constructor; auto.
Qed.

Lemma traverse_total {A B : Type} (f : A -> result B) (l : list A) :
  Forall (fun x => exists y, f x = Ok y) l -> exists l', traverse f l = Ok l'.
Proof.
  induction 1 as [|x l [y Hy] _ [ys IH]]; simpl; [eauto |].
  rewrite Hy, IH. eauto.
Qed.

(** ** The Quantity conversion *)

Section Quantity.
Context `{Pandas}.

Lemma quantity_cell_coerced v v' : quantity_cell v = Ok v' -> coerced v v'.
Proof.
  unfold quantity_cell, coerced. intros Hq.
  assert (Hcases : exists z, v' = VInt z
            /\ (is_null (to_numeric v) = true -> z = 0)
            /\ (forall n, to_numeric v = VInt n -> z = n)).
  { destruct (to_numeric v) as [k|s|z|[m e|neg]|d]; simpl in Hq; try discriminate;
      injection Hq as <-; eexists; (split; [reflexivity |]); split;
      intros; simplify_eq; reflexivity. }
  destruct Hcases as (z & -> & Hnull & Hint). exists z. split; [reflexivity |]. split.
  - intros [-> | [-> | (s & -> & Hs & _)]]; apply Hnull; simpl; try reflexivity.
    now rewrite Hs.
  - intros n [-> | (s & -> & Hs)] _; apply Hint; simpl; [reflexivity |].
    now rewrite Hs.
Qed.

Lemma quantity_cell_finite v : finite_quantity v -> exists v', quantity_cell v = Ok v'.
Proof.
  unfold finite_quantity, quantity_cell. intros Hfin.
  assert (Hnum : is_null (to_numeric v) = true
                 \/ (exists z, to_numeric v = VInt z)
                 \/ exists x, to_numeric v = VFloat x).
  { destruct v as [[| |]|s|z|x|d]; simpl; eauto.
    - destruct (datetime_to_numeric None); simpl; eauto.
    - destruct (Numeric.of_str s) as [n|] eqn:Hn; simpl; eauto.
      unfold Numeric.of_str, Numeric.decimal, Numeric.infinity in Hn.
      repeat (case_match; simplify_eq; eauto).
    - destruct (datetime_to_numeric (Some d)); simpl; eauto. }
  destruct Hnum as [Hnull | [[z Hz] | [x Hx]]].
  - unfold fillna. rewrite Hnull. simpl. eauto.
  - rewrite Hz. simpl. eauto.
  - rewrite Hx. simpl. destruct x as [m e|neg]; simpl; eauto.
    now destruct (Hfin neg).
Qed.

Lemma coerce_quantity_ok g g' :
  coerce_quantity g = Ok g' ->
  exists q q',
    select "Quantity" g = [("Quantity", q)]
    /\ traverse quantity_cell q = Ok q'
    /\ g' = setitem "Quantity" q' g
    /\ select "Quantity" g' = [("Quantity", q')].
Proof.
  intros Hc. unfold coerce_quantity, convert_series, getitem in Hc.
  unfold mbind, result_bind, series in Hc.
  destruct (select "Quantity" g) as [|[l q] [|]] eqn:Hs;
    simpl in Hc; try discriminate.
  pose proof (select_single _ _ _ _ Hs) as ->.
  destruct (traverse quantity_cell q) as [q'|] eqn:Hq; [| discriminate].
  injection Hc as <-. exists q, q'.
  split; [reflexivity |]. split; [exact Hq |]. split; [reflexivity |].
  rewrite select_setitem by (eapply select_elem_of; exact Hs). now rewrite Hs.
Qed.

Lemma coerce_quantity_eq g q q' :
  select "Quantity" g = [("Quantity", q)] ->
  traverse quantity_cell q = Ok q' ->
  coerce_quantity g = Ok (setitem "Quantity" q' g).
Proof.
  intros Hq Htr. unfold coerce_quantity, convert_series, getitem.
  rewrite Hq. simpl. now rewrite Htr.
Qed.

Lemma coerce_quantity_total g q :
  select "Quantity" g = [("Quantity", q)] ->
  Forall finite_quantity q ->
  exists g', coerce_quantity g = Ok g'.
Proof.
  intros Hs Hfin. unfold coerce_quantity, convert_series, getitem. rewrite Hs. simpl.
  destruct (traverse_total quantity_cell q) as [q' Hq'].
  { eapply Forall_impl; [exact Hfin |]. intros v. apply quantity_cell_finite. }
  rewrite Hq'. simpl. eauto.
Qed.

Lemma coerce_quantity_raises g e : coerce_quantity g = Raise e -> e <> RerunException.
Proof.
  unfold coerce_quantity, convert_series, getitem.
  destruct (select "Quantity" g) as [|[l q] [|]]; simpl; try (intros [= <-]; discriminate).
  destruct (traverse quantity_cell q) as [q'|e'] eqn:Hq; simpl; [discriminate |].
  intros [= <-]. clear -Hq. revert Hq. induction q as [|v q IH]; simpl; [discriminate |].
  destruct (quantity_cell v) as [v'|e''] eqn:Hv.
  - destruct (traverse quantity_cell q); [discriminate |]. intros [= <-]. now apply IH.
  - intros [= <-]. unfold quantity_cell in Hv.
    destruct (fillna (VInt 0) (to_numeric v)) as [k|s|z|[m x|neg]|d]; simpl in Hv;
      try discriminate; injection Hv as <-; discriminate.
Qed.

End Quantity.

(** ** The button handlers *)

Section Handlers.
Context `{Pandas}.

(** ** Delete row *)

Lemma decimal_nonneg (c d : Z) : Unicode.decimal c = Some d -> 0 <= d.
Proof.
  unfold Unicode.decimal. intros Hd.
  destruct (find _ Unicode.decimal_zeros) as [z|] eqn:Hz; [| discriminate].
  apply find_some in Hz as [_ Hz]. injection Hd as <-. lia.
Qed.

Lemma decimal_run_nonneg (cs : list Z) : Forall (fun d => 0 <= d) (Py.decimal_run cs).1.
Proof.
  induction cs as [|c cs IH]; simpl; [constructor |].
  destruct (Unicode.decimal c) as [d|] eqn:Hd; [| constructor].
  destruct (Py.decimal_run cs) as [ds rest]. simpl in *.
  constructor; [now apply decimal_nonneg with c | exact IH].
Qed.

Lemma digits_value_nonneg (ds : list Z) :
  Forall (fun d => 0 <= d) ds -> 0 <= Py.digits_value ds.
Proof.
  unfold Py.digits_value. intros Hds.
  assert (Hle : forall acc, 0 <= acc -> 0 <= foldl (fun a d => 10 * a + d) acc ds).
  { induction Hds as [|d ds Hd _ IH]; simpl; intros acc Hacc; [exact Hacc |].
    apply IH. lia. }
  apply Hle. lia.
Qed.

(** [int] of digits is no negative number. *)
Lemma int_of_digits_nonneg (s : string) (idx : Z) :
  Py.int_of_digits s = inl idx -> 0 <= idx.
Proof.
  unfold Py.int_of_digits.
  pose proof (decimal_run_nonneg (default [] (Utf8.decode s))) as Hrun.
  destruct (Py.decimal_run _) as [ds rest]. simpl in Hrun.
  destruct (_ <? _)%nat; [discriminate |].
  destruct ds as [|d ds]; [discriminate |]. destruct rest; [| discriminate].
  intros [= <-]. now apply digits_value_nonneg.
Qed.

(** C5. The superscript two in the index box: [str.isdigit] accepts it at
    line 117 and [int] refuses it at line 118, outside every [try], so Delete
    Row raises [ValueError] instead of showing its own error.  The frame and
    the database are as before. *)
Theorem delete_row_digit_without_value (s : state) :
  delete_row_main superscript_two s
  = (Raise (ValueError ("invalid literal for int() with base 10: '"
                        +:+ superscript_two +:+ "'")), s).
Proof. reflexivity. Qed.

(** X16. A text in the index box that [str.isdigit] refuses, or that [int]
    reads as a number not below the row count, makes Delete Row show an
    error in the sidebar and do nothing else: the DataFrame, the database
    and the control flow (no rerun) are as before.  A text that
    [str.isdigit] accepts and [int] refuses (a digit that is no decimal
    digit, more than 4300 digits) makes it raise the [ValueError] of line
    118, with the state as before. *)
Theorem delete_row_invalid_index (s : state) (delete_index : string) :
  (Py.isdigit delete_index = false
   \/ (exists idx, Py.int_of_digits delete_index = inl idx
                   /\ Z.of_nat (nrows (df s)) <= idx) ->
   exists text,
     delete_row_main delete_index s
     = (Ok tt, State (db s) (fault s) (df s) (shown s ++ [SidebarError text])))
  /\ (forall msg,
        Py.isdigit delete_index = true ->
        Py.int_of_digits delete_index = inr msg ->
        delete_row_main delete_index s = (Raise (ValueError msg), s)).
Proof.
  split.
  - intros Hbad. unfold delete_row_main, int.
    destruct (Py.isdigit delete_index) eqn:Hd.
    + destruct Hbad as [Hbad | (idx & Hidx & Hbad)]; [discriminate |].
      rewrite Hidx. run. rewrite bool_decide_eq_false_2 by lia. eauto.
    + run. eauto.
  - intros msg Hd Hmsg. unfold delete_row_main, int. rewrite Hd, Hmsg. reflexivity.
Qed.

(** ** Add column *)

Lemma setitem_fresh (c : string) (cells : list value) (g : frame) :
  c ∉ labels g -> setitem c cells g = Frame (index g) (columns g ++ [(c, cells)]).
Proof. intros Hc. unfold setitem. now rewrite decide_False. Qed.

(** C6. Add Column with an empty name or a name the DataFrame already has
    shows a warning and changes nothing (so the columns are as many as
    before); with any other name it appends one last column that holds the
    zero value of the chosen kind in every row. *)
Theorem add_column_appends_zero_column (s : state) (name : string) (k : kind) :
  (name = EmptyString \/ name ∈ labels (df s) ->
   add_column_main name (kind_name k) s
   = (Ok tt, State (db s) (fault s) (df s)
               (shown s ++ [SidebarWarning "Column already exists or invalid name."])))
  /\ (name <> EmptyString /\ name ∉ labels (df s) ->
      exists r s',
        add_column_main name (kind_name k) s = (r, s')
        /\ df s' = Frame (index (df s))
                     (columns (df s) ++ [(name, replicate (nrows (df s)) (zero_value k))])).
Proof.
  split.
  - intros Hbad. unfold add_column_main. run.
    rewrite bool_decide_eq_false_2; [reflexivity |].
    intros [Hne Hfresh]. destruct Hbad; contradiction.
  - intros Hgood. unfold add_column_main. run.
    rewrite bool_decide_eq_true_2 by exact Hgood.
    destruct Hgood as [_ Hfresh].
    assert (Hput : forall v,
      setitem_scalar name v (df s)
      = Frame (index (df s)) (columns (df s) ++ [(name, replicate (nrows (df s)) v)])).
    { intros v. unfold setitem_scalar. now apply setitem_fresh. }
    destruct k; simpl; rewrite Hput; destruct (fault s); simpl; eauto.
Qed.

(** ** Save Updates: the pre-save transform *)

(** C1. On a well-formed timeline frame with one Status and one Progress
    column, line 204 succeeds and leaves the index, the labels and every
    column but Progress as they are; in Progress, the row of every Status
    that is "Finished" in any case holds 100 whatever it held before, and
    every other row holds what it held. *)
Theorem finished_rows_get_progress_100 (g : frame) (status progress : list value) :
  wf_frame g ->
  select "Status" g = [("Status", status)] ->
  select "Progress" g = [("Progress", progress)] ->
  exists g',
    force_finished_progress g = Ok g'
    /\ index g' = index g
    /\ labels g' = labels g
    /\ (forall c, c <> "Progress" -> select c g' = select c g)
    /\ forall i st, status !! i = Some st ->
         cell "Progress" i g'
         = if is_finished st then Some (VInt 100) else progress !! i.
Proof.
  intros Hwf Hs Hp.
  assert (Hlen : length status = length progress).
  { rewrite (wf_select_length _ _ _ Hwf Hs). now rewrite (wf_select_length _ _ _ Hwf Hp). }
  pose proof (select_elem_of _ _ _ _ Hp) as Hin.
  unfold force_finished_progress, getitem. rewrite Hs. simpl.
  unfold loc_setitem. rewrite decide_True by exact Hin.
  eexists. split; [reflexivity |]. simpl.
  split; [reflexivity |]. split; [apply rebuild_labels |].
  split.
  - intros c Hc. unfold select. simpl. now apply filter_rebuild_other.
  - intros i st Hi. unfold cell, select. simpl.
    rewrite filter_rebuild_same. fold (select "Progress" g). rewrite Hp. simpl.
    rewrite mask_assign_lookup by (now rewrite length_fmap).
    rewrite list_lookup_fmap, Hi. simpl. rewrite finished_mask.
    now destruct (is_finished st).
Qed.


(** ** Save Updates: failure and retry *)

Lemma force_finished_progress_frame g g' :
  force_finished_progress g = Ok g' ->
  index g' = index g
  /\ (forall c, c <> "Progress" -> select c g' = select c g)
  /\ force_finished_progress g' = Ok g'.
Proof.
  unfold force_finished_progress, getitem.
  destruct (select "Status" g) as [|[l st] [|]] eqn:Hs; simpl; try discriminate.
  intros Hset. apply loc_setitem_frame in Hset as (Hidx & Hsel & Hagain).
  split; [exact Hidx |]. split; [exact Hsel |].
  rewrite (Hsel "Status") by discriminate. rewrite Hs. simpl. exact Hagain.
Qed.

Lemma force_finished_progress_raises g e :
  force_finished_progress g = Raise e -> e <> RerunException.
Proof.
  unfold force_finished_progress, getitem, loc_setitem.
  destruct (select "Status" g) as [|[l st] [|]]; simpl; try (intros [= <-]; discriminate).
  repeat case_decide; intros [= <-]; discriminate.
Qed.

(** Whatever the handler does, what the page showed stays on the page. *)
Lemma save_updates_main_shown (s : state) (r : result unit) (s' : state) :
  save_updates_main s = (r, s') -> forall m, m ∈ shown s -> m ∈ shown s'.
Proof.
  unfold save_updates_main. run.
  destruct (force_finished_progress (df s)) as [g'|e]; simpl.
  - destruct (fault s) as [err|]; simpl; intros [= <- <-] m Hm; simpl;
      apply elem_of_app; now left.
  - now intros [= <- <-].
Qed.

(** The handler alone.  When the write fails it returns normally, with the
    frame at hand the edited one after line 204: the index and every column
    but Progress are as they were, and pressing the button again once the
    database answers writes what a first success would have written.  It asks
    for a rerun only after a write that succeeded. *)
Lemma save_updates_main_outcomes (s : state) :
  (forall err g',
     fault s = Some err ->
     force_finished_progress (df s) = Ok g' ->
     let note := Error ("Error saving main timeline: " +:+ err) in
     save_updates_main s = (Ok tt, State (db s) (Some err) g' (shown s ++ [note]))
     /\ index g' = index (df s)
     /\ (forall c, c <> "Progress" -> select c g' = select c (df s))
     /\ (save_updates_main (State (db s) None g' (shown s ++ [note]))).1
        = Raise RerunException
     /\ db (save_updates_main (State (db s) None g' (shown s ++ [note]))).2
        = db (save_updates_main (State (db s) None (df s) (shown s))).2)
  /\ (forall r s',
        save_updates_main s = (r, s') ->
        (r = Raise RerunException ->
         fault s = None
         /\ exists g', force_finished_progress (df s) = Ok g'
            /\ db s' = <["Contrcution_Timeline" := Table (nrows g') (columns g')]> (db s))
        /\ (r <> Raise RerunException -> db s' = db s)).
Proof.
  split.
  - intros err g' Hfault Hforce note.
    destruct (force_finished_progress_frame _ _ Hforce) as (Hidx & Hsel & Hagain).
    split; [| split; [exact Hidx | split; [exact Hsel |]]].
    + unfold save_updates_main. run. rewrite Hforce. simpl. now rewrite Hfault.
    + unfold save_updates_main. run. rewrite Hagain, Hforce. simpl. split; reflexivity.
  - intros r s'. unfold save_updates_main. run.
    destruct (force_finished_progress (df s)) as [g'|e] eqn:Hforce; simpl.
    + destruct (fault s) as [err|] eqn:Hfault; simpl; intros [= <- <-]; simpl.
      * split; [discriminate | reflexivity].
      * split; [eauto | congruence].
    + intros [= <- <-]. split; [| reflexivity].
      intros [= ->]. now apply force_finished_progress_raises in Hforce.
Qed.

(** C8. When the write of Save Updates fails, the run ends normally: no rerun
    is requested, so the page is not reloaded; the database is as it was;
    and the page shows, after what it showed before, the data editor with the
    user's edits and then the error.  A rerun is requested only after a write
    that succeeded, and in every other outcome the database is as it was and
    the data editor with the user's edits is on the page. *)
Theorem failed_save_skips_reload (s : state) (edited : frame) :
  (forall err g',
     fault s = Some err ->
     force_finished_progress (coerce_edited_status edited) = Ok g' ->
     timeline_editor edited true s
     = (Ok tt,
        State (db s) (Some err) g'
          (shown s ++ [DataEditor edited;
                       Error ("Error saving main timeline: " +:+ err)])))
  /\ (forall r s',
        timeline_editor edited true s = (r, s') ->
        (r = Raise RerunException ->
         fault s = None
         /\ exists g', force_finished_progress (coerce_edited_status edited) = Ok g'
            /\ db s' = <["Contrcution_Timeline" := Table (nrows g') (columns g')]> (db s))
        /\ (r <> Raise RerunException ->
            db s' = db s /\ DataEditor edited ∈ shown s')).
Proof.
  set (s0 := State (db s) (fault s) (coerce_edited_status edited)
               (shown s ++ [DataEditor edited])).
  assert (Hrun : timeline_editor edited true s = save_updates_main s0) by reflexivity.
  destruct (save_updates_main_outcomes s0) as [Hfail Hany].
  split.
  - intros err g' Hfault Hforce. rewrite Hrun.
    destruct (Hfail err g' Hfault Hforce) as [-> _].
    simpl. now rewrite <- app_assoc.
  - intros r s' Hrs. rewrite Hrun in Hrs.
    destruct (Hany r s' Hrs) as [Hrerun Hother]. split; [exact Hrerun |].
    intros Hr. split; [now apply Hother |].
    apply (save_updates_main_shown s0 r s' Hrs).
    apply elem_of_app. right. left.
Qed.

(** ** Save Items *)

(** C10. The Items save converts Quantity at save time, whatever the frame
    holds: with one Quantity column, no infinite number and no integer
    beyond int64 in it and a database that answers, the handler writes and
    asks for a rerun; and whenever it writes, the Quantity column of the
    stored table holds integers only, 0 where the edited cell was missing or
    not numeric (and the integer of the cell where it held one that float64
    keeps exactly).  In every other outcome nothing is written. *)
Theorem save_items_persists_integer_quantities (s : state) :
  (forall q,
     select "Quantity" (df s) = [("Quantity", q)] ->
     Forall finite_quantity q ->
     Forall fits_int64 q ->
     fault s = None ->
     (save_items_table s).1 = Raise RerunException)
  /\ (forall r s',
        save_items_table s = (r, s') ->
        (r = Raise RerunException
         /\ db s' = <["Items_Order" := Table (nrows (df s')) (columns (df s'))]> (db s)
         /\ exists q q',
              select "Quantity" (df s) = [("Quantity", q)]
              /\ select "Quantity" (df s') = [("Quantity", q')]
              /\ Forall2 coerced q q')
        \/ (r = Ok tt /\ db s' = db s)).
Proof.
  split.
  - intros q Hs Hfin _ Hfault.
    destruct (coerce_quantity_total _ _ Hs Hfin) as [g' Hg'].
    unfold save_items_table. run. now rewrite Hg', Hfault.
  - intros r s'. unfold save_items_table. run.
    destruct (coerce_quantity (df s)) as [g'|e] eqn:Hc; simpl.
    + destruct (fault s) as [err|] eqn:Hfault; simpl; intros [= <- <-]; simpl.
      * right. split; reflexivity.
      * left. split; [reflexivity |]. split; [reflexivity |].
        apply coerce_quantity_ok in Hc as (q & q' & Hq & Htr & -> & Hq').
        exists q, q'. split; [exact Hq |]. split; [exact Hq' |].
        apply traverse_Forall2 in Htr.
        eapply Forall2_impl; [exact Htr |]. intros v v'. apply quantity_cell_coerced.
    + destruct e as [cls msg|]; simpl.
      * intros [= <- <-]. right. split; reflexivity.
      * now apply coerce_quantity_raises in Hc.
Qed.

End Handlers.
(** ** Loading *)

Section Loading.
Context `{Pandas}.

Lemma coerce_datetime_ok c x g :
  select c g = [(c, x)] ->
  coerce_datetime c g = Ok (map_column c to_datetime g).
Proof.
  intros Hs. unfold coerce_datetime, convert_series, getitem. rewrite Hs. simpl.
  unfold setitem. rewrite decide_True by (eapply select_elem_of; exact Hs).
  unfold map_column. do 2 f_equal.
  now apply (rebuild_const_unique c (fmap to_datetime)).
Qed.

Lemma coerce_datetime_if c g :
  NoDup (labels g) ->
  (if decide (c ∈ labels g) then coerce_datetime c g else Ok g)
  = Ok (map_column c to_datetime g).
Proof.
  intros Hnd. destruct (decide (c ∈ labels g)) as [Hin|Hout].
  - destruct (select_unique c g Hnd Hin) as [x Hx]. now apply coerce_datetime_ok with x.
  - unfold map_column. rewrite rebuild_absent by exact Hout. now destruct g.
Qed.

Lemma load_timeline_data_ok s t :
  fault s = None ->
  db s !! "Contrcution_Timeline" = Some t ->
  NoDup (labels (source_frame timeline_mapping t)) ->
  "Status" ∈ labels (source_frame timeline_mapping t) ->
  load_timeline_data s
  = (Ok (Frame (seq 0 (trows t)) (timeline_columns (columns (source_frame timeline_mapping t)))), s).
Proof.
  intros Hfault Hdb Hnd Hstatus. unfold load_timeline_data.
  unfold read_sql, lift, mbind, mret, M_bind, M_ret. rewrite Hfault, Hdb.
  fold (source_frame timeline_mapping t).
  set (src := source_frame timeline_mapping t) in *.
  rewrite coerce_datetime_if by exact Hnd.
  rewrite coerce_datetime_if by (now rewrite labels_map_column).
  unfold coerce_status. rewrite convert_column_ok by (now rewrite !labels_map_column).
  reflexivity.
Qed.

Lemma coerce_items_inv g g' :
  coerce_items g = Ok g' ->
  Forall (fun c => c ∈ labels g) needed_cols
  /\ exists q q',
       select "Quantity" g = [("Quantity", q)]
       /\ traverse quantity_cell q = Ok q'
       /\ g' = Frame (index g) (items_columns q' (columns g)).
Proof.
  unfold coerce_items. unfold mbind, result_bind.
  destruct (convert_column "Item" astype_str g) as [g1|] eqn:H1; [| discriminate].
  destruct (coerce_quantity g1) as [g2|] eqn:H2; [| discriminate].
  destruct (convert_column "Order Status" astype_str g2) as [g3|] eqn:H3; [| discriminate].
  destruct (convert_column "Delivery Status" astype_str g3) as [g4|] eqn:H4; [| discriminate].
  intros H5.
  apply convert_column_inv in H1 as [I1 ->].
  apply coerce_quantity_ok in H2 as (q & q' & Hq & Htr & -> & _).
  pose proof (select_elem_of _ _ _ _ Hq) as I2.
  apply convert_column_inv in H3 as [I3 ->].
  apply convert_column_inv in H4 as [I4 ->].
  apply convert_column_inv in H5 as [I5 ->].
  assert (Hlab : labels (setitem "Quantity" q' (map_column "Item" astype_str g)) = labels g).
  { rewrite labels_setitem by exact I2. apply labels_map_column. }
  rewrite labels_map_column in I2.
  rewrite Hlab in I3. rewrite labels_map_column, Hlab in I4.
  rewrite !labels_map_column, Hlab in I5.
  rewrite select_map_column_other in Hq by discriminate.
  split; [unfold needed_cols; repeat (constructor; [assumption |]); constructor |].
  exists q, q'. split; [exact Hq |]. split; [exact Htr |].
  unfold map_column, setitem. simpl.
  rewrite decide_True by (unfold labels; simpl; now rewrite rebuild_labels).
  reflexivity.
Qed.

Lemma coerce_items_ok g q :
  Forall (fun c => c ∈ labels g) needed_cols ->
  select "Quantity" g = [("Quantity", q)] ->
  Forall finite_quantity q ->
  exists q',
    traverse quantity_cell q = Ok q'
    /\ coerce_items g = Ok (Frame (index g) (items_columns q' (columns g))).
Proof.
  intros Hneeded Hq Hfin.
  destruct (traverse_total quantity_cell q) as [q' Hq'].
  { eapply Forall_impl; [exact Hfin |]. intros v. apply quantity_cell_finite. }
  exists q'. split; [exact Hq' |].
  unfold needed_cols in Hneeded.
  repeat (apply Forall_cons in Hneeded as [? Hneeded]).
  assert (Hlab : labels (setitem "Quantity" q' (map_column "Item" astype_str g)) = labels g).
  { rewrite labels_setitem; rewrite labels_map_column; [reflexivity | assumption]. }
  unfold coerce_items.
  rewrite convert_column_ok, ok_bind by assumption.
  rewrite (coerce_quantity_eq _ q q'), ok_bind;
    [| now rewrite select_map_column_other by discriminate | exact Hq'].
  rewrite convert_column_ok, ok_bind by (now rewrite Hlab).
  rewrite convert_column_ok, ok_bind by (now rewrite labels_map_column, Hlab).
  rewrite convert_column_ok by (now rewrite !labels_map_column, Hlab).
  unfold map_column, setitem. simpl.
  rewrite decide_True by (unfold labels; simpl; now rewrite rebuild_labels).
  reflexivity.
Qed.


(** Line 48 (and line 201): [astype(str)] leaves no missing value, so the
    [fillna] after it changes nothing. *)
Lemma status_cell_astype_str v : status_cell v = astype_str v.
Proof. now destruct v as [[| |]|s|z|x|d]. Qed.

Lemma status_cell_text v : exists s, status_cell v = VStr s.
Proof. destruct v as [[| |]|s|z|x|d]; simpl; eauto. Qed.

(** Lines 216-224: when [load_items_data] raises, the backfill of lines
    217-219 is not reached. *)
Lemma items_frame_raises s s' e :
  load_items_data s = (Raise e, s') -> items_frame s = (Raise e, s').
Proof. intros Hload. unfold items_frame. now apply bind_raise. Qed.

Lemma load_items_data_eq s t :
  fault s = None ->
  db s !! "Items_Order" = Some t ->
  load_items_data s = (coerce_items (source_frame items_mapping t), s).
Proof.
  intros Hfault Hdb. unfold load_items_data.
  unfold read_sql, lift, mbind, M_bind. now rewrite Hfault, Hdb.
Qed.

Lemma load_items_data_inv s s' g :
  load_items_data s = (Ok g, s') ->
  s' = s /\ fault s = None
  /\ exists t, db s !! "Items_Order" = Some t
               /\ coerce_items (source_frame items_mapping t) = Ok g.
Proof.
  unfold load_items_data. unfold read_sql, lift, mbind, M_bind.
  destruct (fault s) eqn:Hfault; [discriminate |].
  destruct (db s !! "Items_Order") as [t|] eqn:Hdb; [| discriminate].
  intros [= Hc <-]. eauto.
Qed.

Lemma select_items_columns q q' idx cols :
  select "Quantity" (Frame idx cols) = [("Quantity", q)] ->
  select "Quantity" (Frame idx (items_columns q' cols)) = [("Quantity", q')].
Proof.
  unfold select, items_columns. simpl. intros Hq.
  rewrite !filter_rebuild_other by discriminate.
  rewrite filter_rebuild_same.
  rewrite filter_rebuild_other by discriminate. now rewrite Hq.
Qed.

Lemma labels_timeline_columns cols : (timeline_columns cols).*1 = cols.*1.
Proof. unfold timeline_columns. now rewrite !rebuild_labels. Qed.

Lemma labels_items_columns q' cols : (items_columns q' cols).*1 = cols.*1.
Proof. unfold items_columns. now rewrite !rebuild_labels. Qed.

Lemma to_datetime_cases v : to_datetime v = VNull NaT \/ exists d, to_datetime v = VDate d.
Proof.
  destruct v as [k|s|z|x|d]; simpl; eauto;
    destruct (scalar_to_datetime _); simpl; eauto.
Qed.

(** Lines 217-219 after a load that succeeded: the five columns are there, so
    the backfill creates none. *)
Lemma backfill_after_load s s' g :
  load_items_data s = (Ok g, s') -> foldl backfill g needed_cols = g.
Proof.
  intros Hload. apply load_items_data_inv in Hload as (_ & _ & t & _ & Hc).
  apply coerce_items_inv in Hc as (Hneeded & q & q' & _ & _ & ->).
  set (g := Frame _ _).
  assert (Hlabels : labels g = labels (source_frame items_mapping t)).
  { unfold g, labels. simpl. apply labels_items_columns. }
  rewrite <- Hlabels in Hneeded. clearbody g.
  assert (Hfill : forall c, c ∈ labels g -> backfill g c = g).
  { intros c Hc. unfold backfill. now rewrite decide_True. }
  unfold needed_cols in *. repeat (apply Forall_cons in Hneeded as [? Hneeded]).
  simpl.
  rewrite (Hfill "Item"), (Hfill "Quantity"), (Hfill "Order Status"),
    (Hfill "Delivery Status"), (Hfill "Notes") by assumption.
  reflexivity.
Qed.

(** C4 (corrected: the sign is kept). Every Quantity cell of a loaded Items
    frame is an integer: 0 where the stored cell is missing or not numeric,
    and the stored integer itself, negative ones included, where the cell
    holds one that float64 keeps exactly (up to 2^53 in magnitude). *)
Theorem loaded_quantity_is_integer (s s' : state) (g : frame) :
  load_items_data s = (Ok g, s') ->
  exists t q q',
    db s !! "Items_Order" = Some t
    /\ select "Quantity" (source_frame items_mapping t) = [("Quantity", q)]
    /\ select "Quantity" g = [("Quantity", q')]
    /\ Forall2 coerced q q'.
Proof.
  intros Hload. apply load_items_data_inv in Hload as (_ & _ & t & Hdb & Hc).
  apply coerce_items_inv in Hc as (_ & q & q' & Hq & Htr & ->).
  exists t, q, q'. split; [exact Hdb |]. split; [exact Hq |]. split.
  - destruct (source_frame items_mapping t) as [idx cols]. simpl.
    now apply select_items_columns with q.
  - apply traverse_Forall2 in Htr.
    eapply Forall2_impl; [exact Htr |]. intros v v'. apply quantity_cell_coerced.
Qed.

(** C7 (corrected: no column is created). A load succeeds whatever the cells
    hold, and returns the rows and exactly the columns of the stored table,
    trimmed and renamed: for the timeline when these labels are distinct and Status
    is one of them, with Start Date and End Date through [to_datetime], which
    gives NaT where it fails; for Items when the five columns the loader
    reads are there and Quantity, one column, holds no infinite number, with
    0 for a Quantity cell that is missing or not numeric and the integer of a
    cell that holds one float64 keeps exactly. *)
Theorem load_returns_source_columns (s : state) (t : table) :
  fault s = None ->
  (db s !! "Contrcution_Timeline" = Some t ->
   NoDup (labels (source_frame timeline_mapping t)) ->
   "Status" ∈ labels (source_frame timeline_mapping t) ->
   exists g,
     load_timeline_data s = (Ok g, s)
     /\ index g = seq 0 (trows t)
     /\ labels g = labels (source_frame timeline_mapping t)
     /\ columns g = timeline_columns (columns (source_frame timeline_mapping t)))
  /\ (forall q,
        db s !! "Items_Order" = Some t ->
        Forall (fun c => c ∈ labels (source_frame items_mapping t)) needed_cols ->
        select "Quantity" (source_frame items_mapping t) = [("Quantity", q)] ->
        Forall finite_quantity q ->
        exists g q',
          load_items_data s = (Ok g, s)
          /\ index g = seq 0 (trows t)
          /\ labels g = labels (source_frame items_mapping t)
          /\ columns g = items_columns q' (columns (source_frame items_mapping t))
          /\ Forall2 coerced q q')
  /\ (forall v, to_datetime v = VNull NaT \/ exists d, to_datetime v = VDate d).
Proof.
  intros Hfault. split; [| split].
  - intros Hdb Hnd Hstatus.
    eexists. split; [now apply (load_timeline_data_ok s t) |]. simpl.
    split; [reflexivity |]. split; [| reflexivity].
    unfold labels. simpl. apply labels_timeline_columns.
  - intros q Hdb Hneeded Hq Hfin.
    destruct (coerce_items_ok _ q Hneeded Hq Hfin) as (q' & Htr & Hc).
    eexists. exists q'. rewrite (load_items_data_eq s t Hfault Hdb), Hc.
    split; [reflexivity |]. simpl. split; [reflexivity |].
    split; [unfold labels; simpl; apply labels_items_columns |].
    split; [reflexivity |].
    apply traverse_Forall2 in Htr.
    eapply Forall2_impl; [exact Htr |]. intros v v'. apply quantity_cell_coerced.
  - apply to_datetime_cases.
Qed.

Lemma timeline_columns_typed cols :
  typed_timeline cols -> timeline_columns cols = cols.
Proof.
  intros (Hstatus & Hstart & Hend). unfold timeline_columns.
  rewrite (rebuild_typed is_timestamp "Start Date")
    by (assumption || (intros v [-> | [d ->]]; reflexivity)).
  rewrite (rebuild_typed is_timestamp "End Date")
    by (assumption || (intros v [-> | [d ->]]; reflexivity)).
  apply (rebuild_typed is_text); [assumption |]. now intros v [s ->].
Qed.

Lemma traverse_quantity_integers q q' :
  Forall is_integer q -> traverse quantity_cell q = Ok q' -> q' = q.
Proof.
  intros Hq. revert q'. induction Hq as [|v q [z ->] _ IH]; simpl; intros q'.
  - now intros [= <-].
  - destruct (traverse quantity_cell q) as [ys|]; [| discriminate].
    intros [= <-]. f_equal. now apply IH.
Qed.

Lemma items_columns_typed q q' cols :
  typed_items cols ->
  filter (fun col : column => col.1 = "Quantity") cols = [("Quantity", q)] ->
  traverse quantity_cell q = Ok q' ->
  items_columns q' cols = cols.
Proof.
  intros (Hitem & Hquantity & Horder & Hdelivery & Hnotes) Hsel Htr.
  assert (Hq : q' = q).
  { apply traverse_quantity_integers; [| exact Htr].
    apply Hquantity.
    assert (Hin : ("Quantity", q) ∈ filter (fun col : column => col.1 = "Quantity") cols).
    { rewrite Hsel. left. }
    now apply list_elem_of_filter in Hin as [_ Hin]. }
  subst q'. unfold items_columns.
  rewrite (rebuild_typed is_text "Item") by (assumption || now intros v [s ->]).
  rewrite (rebuild_same "Quantity" q) by exact Hsel.
  rewrite (rebuild_typed is_text "Order Status") by (assumption || now intros v [s ->]).
  rewrite (rebuild_typed is_text "Delivery Status") by (assumption || now intros v [s ->]).
  apply (rebuild_typed is_text); [assumption |]. now intros v [s ->].
Qed.

Lemma source_frame_plain mapping g :
  returned_as_written (columns g) ->
  Forall (plain_label mapping) (labels g) ->
  source_frame mapping (Table (nrows g) (columns g))
  = Frame (seq 0 (nrows g)) (columns g).
Proof.
  intros Hback Hplain. unfold source_frame, rename, map_labels. simpl.
  rewrite Hback. f_equal.
  rewrite <- list_fmap_compose. rewrite <- (list_fmap_id (columns g)) at 2.
  apply list_fmap_ext. intros i [l x] Hi. simpl.
  assert (Hl : plain_label mapping l).
  { eapply Forall_forall; [exact Hplain |]. unfold labels.
    apply list_elem_of_fmap. exists (l, x). split; [reflexivity |].
    eapply list_elem_of_lookup_2. exact Hi. }
  destruct Hl as [Hstrip Hren]. now rewrite Hstrip, Hren.
Qed.

(** C2 (corrected: for columns the database returns as written and labels
    the loader leaves alone). With a database that answers and returns the
    frame's columns as they were written, saving a frame and loading the
    table again gives the frame's row count, its column labels and its cells
    up to the loader's conversions, which change no cell that already has
    the type of its column, provided the loader leaves the labels alone
    (nothing to trim, no storage name) and finds what it reads: for the
    timeline distinct labels with Status among them, for Items the five
    columns it reads with one Quantity column that holds no infinite
    number. *)
Theorem save_then_load_roundtrip (s : state) (g : frame) :
  fault s = None ->
  returned_as_written (columns g) ->
  (Forall (plain_label timeline_mapping) (labels g) ->
   NoDup (labels g) ->
   "Status" ∈ labels g ->
   exists s1 g',
     save_timeline_data g s = (Raise RerunException, s1)
     /\ load_timeline_data s1 = (Ok g', s1)
     /\ nrows g' = nrows g
     /\ labels g' = labels g
     /\ columns g' = timeline_columns (columns g)
     /\ (typed_timeline (columns g) -> columns g' = columns g))
  /\ (forall q,
        Forall (plain_label items_mapping) (labels g) ->
        Forall (fun c => c ∈ labels g) needed_cols ->
        select "Quantity" g = [("Quantity", q)] ->
        Forall finite_quantity q ->
        exists s1 g' q',
          save_items_data g s = (Raise RerunException, s1)
          /\ load_items_data s1 = (Ok g', s1)
          /\ nrows g' = nrows g
          /\ labels g' = labels g
          /\ columns g' = items_columns q' (columns g)
          /\ Forall2 coerced q q'
          /\ (typed_items (columns g) -> columns g' = columns g)).
Proof.
  intros Hfault Hback. split.
  - intros Hplain Hnd Hstatus.
    pose proof (source_frame_plain _ _ Hback Hplain) as Hsrc.
    unfold save_timeline_data. run. rewrite Hfault. simpl.
    eexists. eexists. split; [reflexivity |].
    rewrite (load_timeline_data_ok _ (Table (nrows g) (columns g)));
      [| reflexivity | apply lookup_insert_eq
       | rewrite Hsrc; exact Hnd | rewrite Hsrc; exact Hstatus].
    rewrite Hsrc. split; [reflexivity |]. simpl.
    split; [unfold nrows; simpl; apply length_seq |].
    split; [unfold labels; simpl; apply labels_timeline_columns |].
    split; [reflexivity | apply timeline_columns_typed].
  - intros q Hplain Hneeded Hq Hfin.
    pose proof (source_frame_plain _ _ Hback Hplain) as Hsrc.
    destruct (coerce_items_ok (Frame (seq 0 (nrows g)) (columns g)) q)
      as (q' & Htr & Hc); [exact Hneeded | exact Hq | exact Hfin |].
    unfold save_items_data. run. rewrite Hfault. simpl.
    eexists. eexists. exists q'. split; [reflexivity |].
    rewrite (load_items_data_eq _ (Table (nrows g) (columns g)));
      [| reflexivity | apply lookup_insert_eq].
    rewrite Hsrc, Hc. split; [reflexivity |]. simpl.
    split; [unfold nrows; simpl; apply length_seq |].
    split; [unfold labels; simpl; apply labels_items_columns |].
    split; [reflexivity |]. split.
    + apply traverse_Forall2 in Htr.
      eapply Forall2_impl; [exact Htr |]. intros v v'. apply quantity_cell_coerced.
    + intros Htyped. now apply (items_columns_typed q).
Qed.

End Loading.
(** ** Export *)





Import CsvReader.








Section ExportCsv.
Context `{Pandas}.


End ExportCsv.
(** * The handlers and the loaders, run after run *)

(** ** Rows, columns and cells *)

Lemma compress_all (A : Type) (P : nat -> bool) (idx : list nat) (cells : list A) :
  Forall (fun l => P l = true) idx ->
  length cells = length idx ->
  compress (P <$> idx) cells = cells.
Proof.
  intros Hall. revert cells. induction Hall as [|l idx Hl _ IH]; intros [|x cells] Hlen;
    simpl in *; try discriminate; [reflexivity |].
  rewrite Hl. f_equal. apply IH. lia.
Qed.

(** On distinct row labels, dropping the label of position [i] removes the
    cell of position [i] and no other. *)
Lemma compress_delete (A : Type) (idx : list nat) (cells : list A) (i : nat) :
  NoDup idx ->
  (i < length idx)%nat ->
  length cells = length idx ->
  compress ((fun l => negb (Nat.eqb l (nth i idx 0%nat))) <$> idx) cells = delete i cells.
Proof.
  intros Hnd. revert cells i. induction Hnd as [|a idx Ha Hnd IH];
    intros [|x cells] i Hi Hlen; simpl in *; try lia; try discriminate.
  destruct i as [|i]; simpl.
  - rewrite Nat.eqb_refl. simpl.
    apply (compress_all A (fun l => negb (Nat.eqb l a))); [| lia].
    apply Forall_forall. intros l Hl. apply negb_true_iff, Nat.eqb_neq.
    intros ->. contradiction.
  - assert (Hne : a <> nth i idx 0%nat).
    { intros ->. apply Ha. apply list_elem_of_In. apply nth_In. lia. }
    apply Nat.eqb_neq in Hne. rewrite Hne. simpl. f_equal. apply IH; lia.
Qed.

Lemma drop_position (g : frame) (i : nat) :
  wf_frame g ->
  NoDup (index g) ->
  (i < nrows g)%nat ->
  drop (nth i (index g) 0%nat) g
  = Frame (delete i (index g)) ((fun col : column => (col.1, delete i col.2)) <$> columns g).
Proof.
  intros Hwf Hnd Hi. unfold drop. f_equal.
  - now apply compress_delete.
  - apply list_fmap_ext. intros k [l x] Hk. simpl. f_equal.
    apply compress_delete; [assumption | exact Hi |].
    apply (proj1 (Forall_forall _ _) Hwf (l, x)).
    eapply list_elem_of_lookup_2. exact Hk.
Qed.

Lemma labels_fmap_cells (h : list value -> list value) (cols : list column) :
  ((fun col : column => (col.1, h col.2)) <$> cols).*1 = cols.*1.
Proof. induction cols as [|[l x] cols IH]; csimpl; [reflexivity | now rewrite IH]. Qed.

Lemma labels_drop_column c g :
  labels (drop_column c g) = filter (fun l => l <> c) (labels g).
Proof.
  unfold labels, drop_column. simpl.
  induction (columns g) as [|[l x] cols IH]; [reflexivity |]. csimpl.
  destruct (decide (l <> c)) as [Hl|Hl].
  - rewrite !filter_cons_True by exact Hl. csimpl. now rewrite IH.
  - rewrite !filter_cons_False by exact Hl. exact IH.
Qed.

Lemma select_drop_column_other c c' g :
  c' <> c -> select c' (drop_column c g) = select c' g.
Proof.
  intros Hne. unfold select, drop_column. simpl.
  induction (columns g) as [|[l x] cols IH]; [reflexivity |].
  destruct (decide (l = c)) as [->|Hl].
  - rewrite filter_cons_False by (simpl; intros Hc; now apply Hc).
    rewrite (filter_cons_False _ (c, x)) by (simpl; congruence). exact IH.
  - rewrite filter_cons_True by exact Hl.
    destruct (decide (l = c')) as [->|Hl'].
    + rewrite !filter_cons_True by reflexivity. now rewrite IH.
    + rewrite !filter_cons_False by (simpl; congruence). exact IH.
Qed.

Lemma wf_drop_column c g : wf_frame g -> wf_frame (drop_column c g).
Proof.
  unfold wf_frame, drop_column, nrows. simpl. intros Hwf.
  apply Forall_forall. intros col Hin. apply list_elem_of_filter in Hin as [_ Hin].
  eapply Forall_forall in Hwf; [exact Hwf | exact Hin].
Qed.

Lemma select_absent c g : c ∉ labels g -> select c g = [].
Proof.
  intros Hc. destruct (select c g) as [|col cols] eqn:Hs; [reflexivity |].
  exfalso. apply Hc. eapply select_elem_of. exact Hs.
Qed.

Lemma elem_of_rebuild c c' h (x : list value) cols :
  (c, x) ∈ rebuild c' h cols ->
  (c = c' /\ exists y, x = h y) \/ (c <> c' /\ (c, x) ∈ cols).
Proof.
  unfold rebuild. intros Hin. apply list_elem_of_fmap in Hin as ([l y] & Heq & Hin).
  simpl in Heq. destruct (decide (l = c')) as [->|Hne].
  - injection Heq as -> ->. left. eauto.
  - injection Heq as -> ->. right. auto.
Qed.

Lemma typed_as_rebuild_same (P : value -> Prop) c h cols :
  (forall y, Forall P (h y)) -> typed_as P c (rebuild c h cols).
Proof.
  intros Hh x Hin. apply elem_of_rebuild in Hin as [[_ [y ->]]|[Hne _]]; [apply Hh | congruence].
Qed.

Lemma typed_as_rebuild_other (P : value -> Prop) c c' h cols :
  c <> c' -> typed_as P c cols -> typed_as P c (rebuild c' h cols).
Proof.
  intros Hne Ht x Hin. apply elem_of_rebuild in Hin as [[-> _]|[_ Hin]]; [congruence | auto].
Qed.

Lemma wf_rebuild idx c h cols :
  (forall x, length (h x) = length x) ->
  wf_frame (Frame idx cols) -> wf_frame (Frame idx (rebuild c h cols)).
Proof.
  intros Hh Hwf. unfold wf_frame, rebuild in *. simpl in *.
  apply Forall_fmap. eapply Forall_impl; [exact Hwf |].
  intros [l x] Hx. simpl in *. destruct (decide (l = c)); simpl; [now rewrite Hh | exact Hx].
Qed.

Lemma rebuild_app c h cols cols' :
  rebuild c h (cols ++ cols') = (rebuild c h cols ++ rebuild c h cols')%list.
Proof. unfold rebuild. apply fmap_app. Qed.

Lemma rebuild_other_single c h l (x : list value) :
  l <> c -> rebuild c h [(l, x)] = [(l, x)].
Proof. intros Hl. unfold rebuild. csimpl. now rewrite decide_False. Qed.

(** ** What stops a load *)

Section Loaders.
Context `{Pandas}.

Lemma plain_progress : plain_label timeline_mapping "Progress".
Proof. split; reflexivity. Qed.

Lemma convert_column_missing c f g :
  c ∉ labels g -> convert_column c f g = Raise (KeyError c).
Proof.
  intros Hc. unfold convert_column, getitem.
  destruct (select c g) as [|col cols] eqn:Hs; [reflexivity |].
  exfalso. apply Hc. eapply select_elem_of. exact Hs.
Qed.

Lemma coerce_quantity_missing g :
  "Quantity" ∉ labels g -> coerce_quantity g = Raise (KeyError "Quantity").
Proof.
  intros Hc. unfold coerce_quantity, convert_series, getitem.
  destruct (select "Quantity" g) as [|col cols] eqn:Hs; [reflexivity |].
  exfalso. apply Hc. eapply select_elem_of. exact Hs.
Qed.

(** A load leaves the page, the database and the frame at hand as they are. *)
Lemma load_timeline_data_state (s : state) (r : result frame) (s' : state) :
  load_timeline_data s = (r, s') -> s' = s.
Proof.
  unfold load_timeline_data, read_sql, lift, mbind, mret, M_bind, M_ret.
  destruct (fault s); [now intros [= _ <-] |].
  destruct (db s !! "Contrcution_Timeline") as [t|]; [| now intros [= _ <-]].
  repeat (match goal with
          | |- context [let (_, _) := (?r, _) in _] => destruct r
          | |- context [match ?r with Ok _ => _ | Raise _ => _ end] => destruct r
          end; try (now intros [= _ <-])).
Qed.

Lemma load_items_data_state (s : state) (r : result frame) (s' : state) :
  load_items_data s = (r, s') -> s' = s.
Proof.
  unfold load_items_data, read_sql, lift, mbind, M_bind.
  destruct (fault s); [now intros [= _ <-] |].
  destruct (db s !! "Items_Order"); now intros [= _ <-].
Qed.

(** Line 48 on a table without a Status column. *)
Lemma load_timeline_data_no_status (s : state) (t : table) :
  fault s = None ->
  db s !! "Contrcution_Timeline" = Some t ->
  NoDup (labels (source_frame timeline_mapping t)) ->
  "Status" ∉ labels (source_frame timeline_mapping t) ->
  load_timeline_data s = (Raise (KeyError "Status"), s).
Proof.
  intros Hfault Hdb Hnd Hstatus.
  unfold load_timeline_data, read_sql, lift, mbind, mret, M_bind, M_ret.
  rewrite Hfault, Hdb. fold (source_frame timeline_mapping t).
  rewrite coerce_datetime_if by exact Hnd.
  rewrite coerce_datetime_if by (now rewrite labels_map_column).
  unfold coerce_status.
  rewrite convert_column_missing by (now rewrite !labels_map_column).
  reflexivity.
Qed.

(** X1. The timeline load never changes the page, the database or the frame
    at hand.  It raises the database's error when the query fails, raises
    when the table does not exist, and raises [KeyError: 'Status'] (line 48
    has no guard, unlike the two date columns) when the table has distinct
    column names and none of them is Status. *)
Theorem load_timeline_data_failures (s : state) :
  (forall r s', load_timeline_data s = (r, s') -> s' = s)
  /\ (forall err, fault s = Some err ->
      load_timeline_data s = (Raise (Exception "SQLAlchemyError" err), s))
  /\ (fault s = None -> db s !! "Contrcution_Timeline" = None ->
      exists e, load_timeline_data s = (Raise e, s))
  /\ (forall t, fault s = None -> db s !! "Contrcution_Timeline" = Some t ->
      NoDup (labels (source_frame timeline_mapping t)) ->
      "Status" ∉ labels (source_frame timeline_mapping t) ->
      load_timeline_data s = (Raise (KeyError "Status"), s)).
Proof.
  split; [| split; [| split]].
  - apply load_timeline_data_state.
  - intros err Hfault. unfold load_timeline_data, read_sql, mbind, M_bind.
    now rewrite Hfault.
  - intros Hfault Hdb. unfold load_timeline_data, read_sql, mbind, M_bind.
    rewrite Hfault, Hdb. eauto.
  - intros t. apply load_timeline_data_no_status.
Qed.

(** X2. The Items load raises [KeyError] for the first of its five columns
    (in the order of lines 67-71) that the stored table lacks: [present] are
    the columns before it, which the table has; when Quantity is one of them
    it is a single column without infinite values. *)
Theorem load_items_data_missing_column (s : state) (t : table)
    (present missing_later : list string) (c : string) :
  fault s = None ->
  db s !! "Items_Order" = Some t ->
  needed_cols = (present ++ c :: missing_later)%list ->
  Forall (fun c' => c' ∈ labels (source_frame items_mapping t)) present ->
  c ∉ labels (source_frame items_mapping t) ->
  ("Quantity" ∈ present ->
   exists q, select "Quantity" (source_frame items_mapping t) = [("Quantity", q)]
             /\ Forall finite_quantity q) ->
  load_items_data s = (Raise (KeyError c), s).
Proof.
  intros Hfault Hdb Hsplit Hpresent Hc Hquantity.
  rewrite (load_items_data_eq s t Hfault Hdb). f_equal.
  set (src := source_frame items_mapping t) in *.
  unfold needed_cols in Hsplit. unfold coerce_items.
  destruct present as [|p1 present]; simpl in Hsplit; injection Hsplit as <- Hsplit.
  { now rewrite convert_column_missing. }
  apply Forall_cons in Hpresent as [H1 Hpresent].
  rewrite convert_column_ok, ok_bind by exact H1.
  destruct present as [|p2 present]; simpl in Hsplit; injection Hsplit as <- Hsplit.
  { now rewrite coerce_quantity_missing by (now rewrite labels_map_column). }
  apply Forall_cons in Hpresent as [H2 Hpresent].
  destruct Hquantity as (q & Hq & Hfin); [right; left |].
  destruct (traverse_total quantity_cell q) as [q' Hq'].
  { eapply Forall_impl; [exact Hfin |]. intros v. apply quantity_cell_finite. }
  assert (Hlab : labels (setitem "Quantity" q' (map_column "Item" astype_str src)) = labels src).
  { rewrite labels_setitem; rewrite labels_map_column; [reflexivity | assumption]. }
  rewrite (coerce_quantity_eq _ q q'), ok_bind;
    [| now rewrite select_map_column_other by discriminate | exact Hq'].
  destruct present as [|p3 present]; simpl in Hsplit; injection Hsplit as <- Hsplit.
  { now rewrite convert_column_missing by (now rewrite Hlab). }
  apply Forall_cons in Hpresent as [H3 Hpresent].
  rewrite convert_column_ok, ok_bind by (now rewrite Hlab).
  destruct present as [|p4 present]; simpl in Hsplit; injection Hsplit as <- Hsplit.
  { now rewrite convert_column_missing by (now rewrite labels_map_column, Hlab). }
  apply Forall_cons in Hpresent as [H4 Hpresent].
  rewrite convert_column_ok, ok_bind by (now rewrite labels_map_column, Hlab).
  destruct present as [|p5 present]; simpl in Hsplit; injection Hsplit as <- Hsplit.
  { now rewrite convert_column_missing by (now rewrite !labels_map_column, Hlab). }
  now destruct present.
Qed.

(** ** The Items frame of lines 216-224 *)

Lemma astype_str_text v : is_text (astype_str v).
Proof. rewrite <- status_cell_astype_str. apply status_cell_text. Qed.

Lemma quantity_cell_integer v v' : quantity_cell v = Ok v' -> is_integer v'.
Proof. intros Hq. destruct (quantity_cell_coerced _ _ Hq) as (z & -> & _). now exists z. Qed.

Lemma traverse_quantity_cell_integers q q' :
  traverse quantity_cell q = Ok q' -> Forall is_integer q'.
Proof.
  intros Hq. apply traverse_Forall2 in Hq.
  induction Hq; constructor; eauto using quantity_cell_integer.
Qed.

Lemma integer_finite_quantity v : is_integer v -> finite_quantity v.
Proof. intros [z ->] neg. discriminate. Qed.

Lemma items_columns_are_typed q' cols :
  Forall is_integer q' -> typed_items (items_columns q' cols).
Proof.
  intros Hq. unfold typed_items, items_columns.
  assert (Htext : forall y : list value, Forall is_text (astype_str <$> y)).
  { intros y. apply Forall_fmap, Forall_forall. intros v _. apply astype_str_text. }
  repeat split.
  - repeat (apply typed_as_rebuild_other; [discriminate |]). now apply typed_as_rebuild_same.
  - repeat (apply typed_as_rebuild_other; [discriminate |]). now apply typed_as_rebuild_same.
  - repeat (apply typed_as_rebuild_other; [discriminate |]). now apply typed_as_rebuild_same.
  - repeat (apply typed_as_rebuild_other; [discriminate |]). now apply typed_as_rebuild_same.
  - now apply typed_as_rebuild_same.
Qed.

(** The conversions of an Items load change nothing when run again on their
    own result. *)
Lemma coerce_items_fixed g g' : coerce_items g = Ok g' -> coerce_items g' = Ok g'.
Proof.
  intros Hg. destruct (coerce_items_inv _ _ Hg) as (Hneeded & q & q' & Hq & Hq' & ->).
  pose proof (traverse_quantity_cell_integers _ _ Hq') as Hint.
  pose proof (select_items_columns q q' (index g) (columns g)) as Hsel.
  destruct g as [idx cols]. simpl in *. specialize (Hsel Hq).
  destruct (coerce_items_ok (Frame idx (items_columns q' cols)) q') as (q'' & Hq'' & ->).
  - unfold labels. simpl. now rewrite labels_items_columns.
  - exact Hsel.
  - eapply Forall_impl; [exact Hint |]. apply integer_finite_quantity.
  - simpl. f_equal. f_equal. apply (items_columns_typed q'); auto.
    now apply items_columns_are_typed.
Qed.

(** X3. Lines 216-224 are the load of line 216 and nothing more, in every
    state: when the load raises so does line 216, and on a loaded frame the
    backfill of lines 217-219 adds no column and the conversions of lines
    220-224 change no cell. *)
Theorem items_frame_is_load (s : state) : items_frame s = load_items_data s.
Proof.
  destruct (load_items_data s) as [[g|e] s'] eqn:Hload.
  - unfold items_frame. unfold mbind, M_bind. rewrite Hload.
    rewrite (backfill_after_load _ _ _ Hload).
    destruct (load_items_data_inv _ _ _ Hload) as (-> & _ & t & _ & Hg).
    unfold lift. now rewrite (coerce_items_fixed _ _ Hg).
  - now apply items_frame_raises.
Qed.

End Loaders.

(** ** The sidebar handlers, and the load of the run they trigger *)

Section Sidebar.
Context `{Pandas}.

(** The guarded save of the sidebar handlers and of Save Updates, when the
    database accepts the write. *)
Lemma try_save_timeline_ok (handler : string -> M unit) (s : state) :
  fault s = None ->
  try_except (g ← get_df; save_timeline_data g) handler s
  = (Raise RerunException,
     State (<["Contrcution_Timeline" := Table (nrows (df s)) (columns (df s))]> (db s))
       None (df s) (shown s ++ [Success "Timeline data successfully saved!"])).
Proof. intros Hfault. run. rewrite Hfault. reflexivity. Qed.

(** The next run's load after a write of the frame [g]. *)
Lemma load_after_save (tables : gmap string table) (g at_hand : frame) (page : list message) :
  returned_as_written (columns g) ->
  Forall (plain_label timeline_mapping) (labels g) ->
  NoDup (labels g) ->
  let s' := State (<["Contrcution_Timeline" := Table (nrows g) (columns g)]> tables)
              None at_hand page in
  ("Status" ∈ labels g ->
   load_timeline_data s' = (Ok (Frame (seq 0 (nrows g)) (timeline_columns (columns g))), s'))
  /\ ("Status" ∉ labels g -> load_timeline_data s' = (Raise (KeyError "Status"), s')).
Proof.
  intros Hback Hplain Hnd s'.
  pose proof (source_frame_plain timeline_mapping g Hback Hplain) as Hsrc.
  assert (Hdb : db s' !! "Contrcution_Timeline" = Some (Table (nrows g) (columns g))).
  { subst s'. simpl. now rewrite lookup_insert_eq. }
  split; intros Hstatus.
  - rewrite (load_timeline_data_ok s' _ eq_refl Hdb); rewrite Hsrc; auto.
  - apply (load_timeline_data_no_status s' _ eq_refl Hdb); rewrite Hsrc; auto.
Qed.

(** X4. Delete Row with digits that [int] reads as a valid position [i], on
    a frame with distinct row labels: the frame at hand loses the cell of
    position [i] of every column and its row label, and no other cell.  When
    the database accepts the write the table is replaced by that frame and
    the rerun is requested; when it refuses, the error is shown in the
    sidebar, the database is as before and the frame at hand stays without
    the row. *)
Theorem delete_row_valid_index (s : state) (delete_index : string) (idx : Z) :
  wf_frame (df s) ->
  NoDup (index (df s)) ->
  Py.isdigit delete_index = true ->
  Py.int_of_digits delete_index = inl idx ->
  idx < Z.of_nat (nrows (df s)) ->
  let i := Z.to_nat idx in
  let g' := Frame (delete i (index (df s)))
              ((fun col : column => (col.1, delete i col.2)) <$> columns (df s)) in
  exists r s',
    delete_row_main delete_index s = (r, s')
    /\ df s' = g'
    /\ wf_frame g'
    /\ nrows g' = Nat.pred (nrows (df s))
    /\ (fault s = None ->
        r = Raise RerunException
        /\ db s' = <["Contrcution_Timeline" := Table (nrows g') (columns g')]> (db s))
    /\ (forall err, fault s = Some err ->
        r = Ok tt /\ db s' = db s
        /\ shown s' = (shown s ++ [SidebarError ("Error saving data: " +:+ err)])%list).
Proof.
  intros Hwf Hnd Hd Hidx Hlt i g'.
  pose proof (int_of_digits_nonneg _ _ Hidx) as Hge.
  assert (Hi : (i < nrows (df s))%nat) by (unfold i; lia).
  assert (Hwf' : wf_frame g').
  { unfold wf_frame, g', nrows. simpl. apply Forall_fmap, Forall_forall.
    intros [l x] Hin. simpl. eapply Forall_forall in Hwf; [| exact Hin].
    simpl in Hwf. unfold nrows in *.
    rewrite !length_delete by (apply lookup_lt_is_Some; lia). lia. }
  assert (Hrows : nrows g' = Nat.pred (nrows (df s))).
  { unfold g', nrows. simpl. unfold nrows in Hi.
    rewrite length_delete by (apply lookup_lt_is_Some; lia). lia. }
  pose proof (drop_position _ i Hwf Hnd Hi) as Hdrop.
  pose proof Hdrop as Hparts. unfold drop in Hparts. injection Hparts as Hrowlabels Hcols.
  fold g' in Hdrop.
  unfold delete_row_main, int. rewrite Hd, Hidx. run.
  rewrite bool_decide_eq_true_2 by lia.
  fold i. rewrite ?Hdrop, ?Hrowlabels, ?Hcols.
  destruct (fault s) as [err|] eqn:Hfault; simpl.
  - eexists. eexists. split; [reflexivity |]. simpl.
    split; [reflexivity |]. split; [exact Hwf' |]. split; [exact Hrows |].
    split; [discriminate |]. intros err' [= <-]. repeat split; reflexivity.
  - eexists. eexists. split; [reflexivity |]. simpl.
    split; [reflexivity |]. split; [exact Hwf' |]. split; [exact Hrows |].
    split; [intros _; split; reflexivity | discriminate].
Qed.

(** X5. After Delete Row with a valid position [i] and a successful write
    of columns that the database returns as written, the next run's load
    returns the remaining rows renumbered from 0: the rows that followed the
    deleted one are one position lower. *)
Theorem delete_row_then_load (s : state) (delete_index : string) (idx : Z) :
  fault s = None ->
  wf_frame (df s) ->
  NoDup (index (df s)) ->
  Forall (plain_label timeline_mapping) (labels (df s)) ->
  NoDup (labels (df s)) ->
  "Status" ∈ labels (df s) ->
  Py.isdigit delete_index = true ->
  Py.int_of_digits delete_index = inl idx ->
  idx < Z.of_nat (nrows (df s)) ->
  let i := Z.to_nat idx in
  returned_as_written ((fun col : column => (col.1, delete i col.2)) <$> columns (df s)) ->
  exists s',
    delete_row_main delete_index s = (Raise RerunException, s')
    /\ load_timeline_data s'
       = (Ok (Frame (seq 0 (Nat.pred (nrows (df s))))
                (timeline_columns
                   ((fun col : column => (col.1, delete i col.2)) <$> columns (df s)))),
          s').
Proof.
  intros Hfault Hwf Hndi Hplain Hnd Hstatus Hd Hidx Hlt i Hback.
  pose proof (int_of_digits_nonneg _ _ Hidx) as Hge.
  assert (Hi : (i < nrows (df s))%nat) by (unfold i; lia).
  set (g1 := Frame (delete i (index (df s)))
               ((fun col : column => (col.1, delete i col.2)) <$> columns (df s))).
  assert (Hdrop : drop (nth i (index (df s)) 0%nat) (df s) = g1)
    by now apply drop_position.
  assert (Hlabels : labels g1 = labels (df s)) by apply labels_fmap_cells.
  assert (Hrows : nrows g1 = Nat.pred (nrows (df s))).
  { unfold g1, nrows. simpl. unfold nrows in Hi.
    rewrite length_delete by (apply lookup_lt_is_Some; lia). lia. }
  assert (Hrun : delete_row_main delete_index s
                 = (Raise RerunException,
                    State (<["Contrcution_Timeline" := Table (nrows g1) (columns g1)]> (db s))
                      None g1 (shown s ++ [Success "Timeline data successfully saved!"]))).
  { unfold delete_row_main, int. rewrite Hd, Hidx.
    unfold mbind at 1. unfold M_bind at 1. unfold lift at 1.
    unfold mbind at 1. unfold M_bind at 1. unfold get_df at 1.
    rewrite bool_decide_eq_true_2 by lia.
    unfold mbind at 1. unfold M_bind at 1. unfold put_df. fold i. rewrite Hdrop.
    now rewrite try_save_timeline_ok by exact Hfault. }
  destruct (load_after_save (db s) g1 g1
              (shown s ++ [Success "Timeline data successfully saved!"])) as [Hok _];
    [exact Hback | now rewrite Hlabels | now rewrite Hlabels |].
  eexists. split; [exact Hrun |].
  rewrite Hok by (now rewrite Hlabels). now rewrite Hrows.
Qed.

(** X6. Delete Column warns and changes nothing for the empty choice or a
    label the frame lacks; otherwise every column with the chosen label
    goes, the others keep their order and cells, and the write either
    replaces the table and requests the rerun or shows the error in the
    sidebar with the column gone from the frame at hand only. *)
Theorem delete_column_removes_column (s : state) (col_to_delete : string) :
  (col_to_delete = EmptyString \/ col_to_delete ∉ labels (df s) ->
   delete_column_main col_to_delete s
   = (Ok tt, State (db s) (fault s) (df s)
               (shown s ++ [SidebarWarning "Please select a valid column."])))
  /\ (col_to_delete <> EmptyString /\ col_to_delete ∈ labels (df s) ->
      exists r s',
        delete_column_main col_to_delete s = (r, s')
        /\ index (df s') = index (df s)
        /\ labels (df s') = filter (fun l => l <> col_to_delete) (labels (df s))
        /\ (forall c, c <> col_to_delete -> select c (df s') = select c (df s))
        /\ (wf_frame (df s) -> wf_frame (df s'))
        /\ (fault s = None ->
            r = Raise RerunException
            /\ db s' = <["Contrcution_Timeline" :=
                           Table (nrows (df s')) (columns (df s'))]> (db s))
        /\ (forall err, fault s = Some err ->
            r = Ok tt /\ db s' = db s
            /\ shown s' = (shown s ++ [SidebarError ("Error saving data: " +:+ err)])%list)).
Proof.
  split.
  - intros Hbad. unfold delete_column_main. run.
    rewrite bool_decide_eq_false_2; [reflexivity |].
    intros [Hne Hin]. destruct Hbad; contradiction.
  - intros Hgood. unfold delete_column_main. run.
    rewrite bool_decide_eq_true_2 by exact Hgood.
    destruct (fault s) as [err|] eqn:Hfault; simpl;
      (eexists; eexists; split; [reflexivity |]); simpl;
      (split; [reflexivity |]);
      (split; [apply labels_drop_column |]);
      (split; [intros c Hc; now apply select_drop_column_other |]);
      (split; [apply wf_drop_column |]).
    + split; [discriminate |]. intros err' [= <-]. repeat split; reflexivity.
    + split; [intros _; split; reflexivity | discriminate].
Qed.

(** X7. After a successful Delete Column that leaves columns the database
    returns as written, the next run's load returns the remaining columns,
    unless the deleted column is Status: then the load raises
    [KeyError: 'Status'] at line 48. *)
Theorem delete_column_then_load (s : state) (col_to_delete : string) :
  fault s = None ->
  returned_as_written
    (filter (fun col : column => col.1 <> col_to_delete) (columns (df s))) ->
  Forall (plain_label timeline_mapping) (labels (df s)) ->
  NoDup (labels (df s)) ->
  "Status" ∈ labels (df s) ->
  col_to_delete <> EmptyString ->
  col_to_delete ∈ labels (df s) ->
  exists s',
    delete_column_main col_to_delete s = (Raise RerunException, s')
    /\ (col_to_delete = "Status" -> load_timeline_data s' = (Raise (KeyError "Status"), s'))
    /\ (col_to_delete <> "Status" ->
        load_timeline_data s'
        = (Ok (Frame (seq 0 (nrows (df s)))
                 (timeline_columns
                    (filter (fun col : column => col.1 <> col_to_delete) (columns (df s))))),
           s')).
Proof.
  intros Hfault Hback Hplain Hnd Hstatus Hname Hin.
  set (g1 := drop_column col_to_delete (df s)).
  assert (Hlabels : labels g1 = filter (fun l => l <> col_to_delete) (labels (df s)))
    by apply labels_drop_column.
  assert (Hrun : delete_column_main col_to_delete s
                 = (Raise RerunException,
                    State (<["Contrcution_Timeline" := Table (nrows g1) (columns g1)]> (db s))
                      None g1 (shown s ++ [Success "Timeline data successfully saved!"]))).
  { unfold delete_column_main. unfold mbind at 1. unfold M_bind at 1. unfold get_df at 1.
    rewrite bool_decide_eq_true_2 by auto.
    unfold mbind at 1. unfold M_bind at 1. unfold put_df. fold g1.
    now rewrite try_save_timeline_ok by exact Hfault. }
  destruct (load_after_save (db s) g1 g1
              (shown s ++ [Success "Timeline data successfully saved!"])) as [Hok Hraise].
  { exact Hback. }
  { rewrite Hlabels. apply Forall_forall. intros l Hl.
    apply list_elem_of_filter in Hl as [_ Hl].
    exact (proj1 (Forall_forall _ _) Hplain l Hl). }
  { rewrite Hlabels. now apply NoDup_filter. }
  eexists. split; [exact Hrun |]. split.
  - intros ->. apply Hraise. rewrite Hlabels. intros Hs.
    apply list_elem_of_filter in Hs as [Hs _]. now apply Hs.
  - intros Hne. apply Hok. rewrite Hlabels. apply list_elem_of_filter. split; [congruence | auto].
Qed.

(** X8. After a successful Add Column the next run's load returns the old
    columns followed by the new one with its zero value in every row, for a
    new name that the loader neither trims nor renames and that is not one
    of the two date columns, when the database returns the columns with the
    new one as they were written. *)
Theorem add_column_then_load (s : state) (name : string) (k : kind) :
  fault s = None ->
  returned_as_written
    (columns (df s) ++ [(name, replicate (nrows (df s)) (zero_value k))]) ->
  Forall (plain_label timeline_mapping) (labels (df s)) ->
  NoDup (labels (df s)) ->
  "Status" ∈ labels (df s) ->
  name <> EmptyString ->
  name ∉ labels (df s) ->
  plain_label timeline_mapping name ->
  name ∉ ["Start Date"; "End Date"] ->
  exists s' g',
    add_column_main name (kind_name k) s = (Raise RerunException, s')
    /\ load_timeline_data s' = (Ok g', s')
    /\ index g' = seq 0 (nrows (df s))
    /\ columns g'
       = (timeline_columns (columns (df s))
          ++ [(name, replicate (nrows (df s)) (zero_value k))])%list.
Proof.
  intros Hfault Hback Hplain Hnd Hstatus Hname Hfresh Hplain' Hdates.
  set (g1 := Frame (index (df s))
               (columns (df s) ++ [(name, replicate (nrows (df s)) (zero_value k))])).
  assert (Hadd : setitem_scalar name (zero_value k) (df s) = g1).
  { unfold setitem_scalar. now rewrite setitem_fresh. }
  assert (Hlabels : labels g1 = (labels (df s) ++ [name])%list).
  { unfold labels, g1. simpl. now rewrite fmap_app. }
  assert (Hrun : add_column_main name (kind_name k) s
                 = (Raise RerunException,
                    State (<["Contrcution_Timeline" := Table (nrows g1) (columns g1)]> (db s))
                      None g1 (shown s ++ [Success "Timeline data successfully saved!"]))).
  { unfold add_column_main. unfold mbind at 1. unfold M_bind at 1. unfold get_df at 1.
    rewrite bool_decide_eq_true_2 by auto.
    unfold mbind at 1. unfold M_bind at 1.
    destruct k; simpl kind_name; simpl zero_value in Hadd;
      repeat (rewrite decide_False by discriminate);
      rewrite decide_True by reflexivity;
      unfold put_df; rewrite Hadd;
      now rewrite try_save_timeline_ok by exact Hfault. }
  destruct (load_after_save (db s) g1 g1
              (shown s ++ [Success "Timeline data successfully saved!"])) as [Hload _].
  { exact Hback. }
  { rewrite Hlabels. apply Forall_app. split; [exact Hplain | now constructor]. }
  { rewrite Hlabels. apply NoDup_app. split; [exact Hnd |].
    split; [| apply NoDup_singleton].
    intros l Hl Hl'. apply list_elem_of_singleton in Hl'. now subst l. }
  eexists _, _. split; [exact Hrun |]. split.
  { apply Hload. rewrite Hlabels. apply elem_of_app. now left. }
  split; [reflexivity |].
  simpl. unfold timeline_columns. rewrite !rebuild_app. f_equal.
  assert (Hs : name <> "Status") by (intros ->; contradiction).
  assert (Hsd : name <> "Start Date") by (intros ->; apply Hdates; constructor).
  assert (Hed : name <> "End Date") by (intros ->; apply Hdates; do 2 constructor).
  now rewrite !rebuild_other_single.
Qed.

End Sidebar.

(** ** The editor of the main timeline *)

Section Editors.
Context `{Pandas}.

Lemma status_cell_idemp v : status_cell (status_cell v) = status_cell v.
Proof. destruct (status_cell_text v) as [t ->]. reflexivity. Qed.

(** X9. Lines 200-201 keep the rows, the labels and every column but
    Status, turn every cell of every Status column into text by
    [status_cell], keep a well-formed frame well-formed, and change nothing
    when run again. *)
Theorem coerce_edited_status_text (g : frame) :
  let g' := coerce_edited_status g in
  index g' = index g
  /\ labels g' = labels g
  /\ (forall c, c <> "Status" -> select c g' = select c g)
  /\ select "Status" g'
     = (fun col : column => ("Status", status_cell <$> col.2)) <$> select "Status" g
  /\ typed_as is_text "Status" (columns g')
  /\ (wf_frame g -> wf_frame g')
  /\ coerce_edited_status g' = g'.
Proof.
  unfold coerce_edited_status.
  destruct (decide ("Status" ∈ labels g)) as [Hin|Hout]; simpl.
  - rewrite decide_True by (now rewrite labels_map_column).
    split; [reflexivity |]. split; [apply labels_map_column |].
    split; [intros c Hc; now apply select_map_column_other |].
    split; [apply filter_rebuild_same |].
    split.
    { apply typed_as_rebuild_same. intros y. apply Forall_fmap, Forall_forall.
      intros v _. apply status_cell_text. }
    split.
    { destruct g as [idx cols]. apply wf_rebuild. intros x. apply length_fmap. }
    unfold map_column. simpl. f_equal. apply rebuild_idemp.
    intros x. rewrite <- list_fmap_compose. apply list_fmap_ext.
    intros i v _. apply status_cell_idemp.
  - rewrite decide_False by exact Hout.
    repeat split; try reflexivity; auto.
    + now rewrite select_absent.
    + intros x Hx. exfalso. apply Hout. unfold labels. apply list_elem_of_fmap.
      now exists ("Status", x).
Qed.

(** X10. Save Updates on a grid without a Status column raises
    [KeyError: 'Status'] at line 204, which stands outside the [try] of line
    205: nothing is written and no error box is shown. *)
Theorem save_updates_without_status (s : state) (edited : frame) :
  "Status" ∉ labels edited ->
  timeline_editor edited true s
  = (Raise (KeyError "Status"),
     State (db s) (fault s) edited (shown s ++ [DataEditor edited])).
Proof.
  intros Hout.
  assert (Hsame : coerce_edited_status edited = edited).
  { unfold coerce_edited_status. now rewrite decide_False. }
  unfold timeline_editor, data_editor, save_updates_main. run. rewrite Hsame.
  unfold force_finished_progress, getitem. now rewrite select_absent.
Qed.

(** Line 204 on a well-formed frame with one Status column. *)
Lemma force_finished_progress_ok (g : frame) (status : list value) :
  wf_frame g ->
  select "Status" g = [("Status", status)] ->
  ("Progress" ∈ labels g \/ nrows g <> 0%nat) ->
  exists g',
    force_finished_progress g = Ok g'
    /\ index g' = index g
    /\ ("Progress" ∈ labels g /\ labels g' = labels g
        \/ ("Progress" ∉ labels g) /\ labels g' = (labels g ++ ["Progress"])%list)
    /\ select "Status" g' = [("Status", status)]
    /\ forall progress i st,
         select "Progress" g' = [("Progress", progress)] ->
         status !! i = Some st ->
         is_finished st = true ->
         progress !! i = Some (VInt 100).
Proof.
  intros Hwf Hs Hp.
  pose proof (wf_select_length _ _ _ Hwf Hs) as Hlen.
  unfold force_finished_progress, getitem. rewrite Hs. simpl. unfold loc_setitem.
  set (mask := (fun v => eq_scalar "finished" (str_lower v)) <$> status).
  assert (Hmask : forall i st, status !! i = Some st -> is_finished st = true ->
                    mask !! i = Some true).
  { intros i st Hi Hfin. unfold mask. rewrite list_lookup_fmap, Hi. simpl.
    now rewrite finished_mask, Hfin. }
  destruct (decide ("Progress" ∈ labels g)) as [Hin|Hout].
  - eexists. split; [reflexivity |]. simpl. split; [reflexivity |].
    split; [left; split; [exact Hin | apply rebuild_labels] |].
    split.
    { unfold select. simpl. rewrite filter_rebuild_other by discriminate. exact Hs. }
    intros progress i st Hsel Hi Hfin. unfold select in Hsel. simpl in Hsel.
    rewrite filter_rebuild_same in Hsel. fold (select "Progress" g) in Hsel.
    destruct (select "Progress" g) as [|[l x] [|]] eqn:Hx; try discriminate.
    injection Hsel as <-.
    pose proof (select_single _ _ _ _ Hx) as ->.
    pose proof (wf_select_length _ _ _ Hwf Hx) as Hlenx.
    rewrite mask_assign_lookup by (unfold mask; rewrite length_fmap; simpl; lia).
    now rewrite (Hmask i st Hi Hfin).
  - destruct Hp as [Hin|Hrows]; [contradiction |].
    rewrite decide_False by exact Hrows.
    eexists. split; [reflexivity |]. simpl. split; [reflexivity |].
    split.
    { right. split; [exact Hout |]. unfold labels. simpl. now rewrite fmap_app. }
    split.
    { rewrite select_app. unfold select at 1. simpl. fold (select "Status" g).
      rewrite Hs. reflexivity. }
    intros progress i st Hsel Hi Hfin.
    rewrite select_app in Hsel. unfold select at 1 in Hsel. simpl in Hsel.
    fold (select "Progress" g) in Hsel.
    rewrite (select_absent "Progress") in Hsel by exact Hout.
    injection Hsel as <-.
    rewrite mask_assign_lookup
      by (unfold mask; rewrite length_fmap, length_replicate; simpl; lia).
    now rewrite (Hmask i st Hi Hfin).
Qed.

(** X11. After Save Updates on a grid with distinct plain labels, a Status
    column and either a Progress column or at least one row, the write
    succeeds and, when the database returns the written columns as they
    were written, the next run's load returns a frame in which every row
    whose Status is finished, in any case, has Progress 100. *)
Theorem saved_finished_rows_reload_at_100 (s : state) (edited : frame) :
  fault s = None ->
  (forall g', force_finished_progress (coerce_edited_status edited) = Ok g' ->
              returned_as_written (columns g')) ->
  wf_frame edited ->
  Forall (plain_label timeline_mapping) (labels edited) ->
  NoDup (labels edited) ->
  "Status" ∈ labels edited ->
  ("Progress" ∈ labels edited \/ nrows edited <> 0%nat) ->
  exists s' g',
    timeline_editor edited true s = (Raise RerunException, s')
    /\ load_timeline_data s' = (Ok g', s')
    /\ nrows g' = nrows edited
    /\ "Progress" ∈ labels g'
    /\ forall i st,
         cell "Status" i g' = Some st ->
         is_finished st = true ->
         cell "Progress" i g' = Some (VInt 100).
Proof.
  intros Hfault Hback Hwf Hplain Hnd Hstatus Hprogress.
  destruct (select_unique _ _ Hnd Hstatus) as [st0 Hst0].
  set (g1 := coerce_edited_status edited).
  assert (Hg1 : g1 = map_column "Status" status_cell edited).
  { unfold g1, coerce_edited_status. now rewrite decide_True. }
  assert (Hidx1 : index g1 = index edited) by now rewrite Hg1.
  assert (Hlab1 : labels g1 = labels edited) by (rewrite Hg1; apply labels_map_column).
  assert (Hsel1 : select "Status" g1 = [("Status", status_cell <$> st0)]).
  { rewrite Hg1. unfold select, map_column. simpl. rewrite filter_rebuild_same.
    fold (select "Status" edited). now rewrite Hst0. }
  assert (Hwf1 : wf_frame g1).
  { rewrite Hg1. destruct edited as [idx cols]. apply wf_rebuild; [| exact Hwf].
    intros x. apply length_fmap. }
  destruct (force_finished_progress_ok g1 _ Hwf1 Hsel1) as (g2 & Hforce & Hidx2 & Hlab2 & Hsel2 & Hcells).
  { rewrite Hlab1. unfold nrows. rewrite Hidx1. exact Hprogress. }
  assert (Hplain2 : Forall (plain_label timeline_mapping) (labels g2)).
  { destruct Hlab2 as [[_ ->]|[_ ->]]; rewrite Hlab1; [exact Hplain |].
    apply Forall_app. split; [exact Hplain |]. constructor; [apply plain_progress | constructor]. }
  assert (Hnd2 : NoDup (labels g2)).
  { destruct Hlab2 as [[_ ->]|[Hout ->]]; rewrite Hlab1; [exact Hnd |].
    rewrite Hlab1 in Hout.
    apply NoDup_app. split; [exact Hnd |]. split; [| apply NoDup_singleton].
    intros l Hl Hl'. apply list_elem_of_singleton in Hl'. now subst l. }
  assert (Hstatus2 : "Status" ∈ labels g2) by (eapply select_elem_of; exact Hsel2).
  assert (Hprogress2 : "Progress" ∈ labels g2).
  { destruct Hlab2 as [[Hin ->]|[_ ->]]; [exact Hin |].
    apply elem_of_app. right. constructor. }
  destruct (select_unique _ _ Hnd2 Hprogress2) as [progress Hsel3].
  assert (Hrun : timeline_editor edited true s
                 = (Raise RerunException,
                    State (<["Contrcution_Timeline" := Table (nrows g2) (columns g2)]> (db s))
                      None g2
                      ((shown s ++ [DataEditor edited])
                       ++ [Success "Timeline data successfully saved!"]))).
  { unfold timeline_editor, data_editor, save_updates_main.
    unfold modify_df, get_df, put_df, show, lift. unfold mbind, mret, M_bind, M_ret. simpl.
    fold g1. rewrite Hforce.
    pose proof (try_save_timeline_ok
                  (fun e => show (Error ("Error saving main timeline: " +:+ e)))
                  (State (db s) (fault s) g2 (shown s ++ [DataEditor edited])) Hfault) as Hsave.
    unfold mbind, M_bind, get_df in Hsave. exact Hsave. }
  destruct (load_after_save (db s) g2 g2
              ((shown s ++ [DataEditor edited])
               ++ [Success "Timeline data successfully saved!"])
              (Hback g2 Hforce) Hplain2 Hnd2) as [Hok _].
  eexists _, _. split; [exact Hrun |]. split; [exact (Hok Hstatus2) |].
  split.
  { unfold nrows. simpl. rewrite length_seq. unfold nrows. now rewrite Hidx2, Hidx1. }
  split.
  { unfold labels. simpl. now rewrite labels_timeline_columns. }
  intros i st Hcell Hfin. unfold cell, select, timeline_columns in *. simpl in *.
  rewrite filter_rebuild_same in Hcell. rewrite !filter_rebuild_other in Hcell by discriminate.
  rewrite !filter_rebuild_other by discriminate.
  rewrite Hsel2 in Hcell. rewrite Hsel3. simpl in *.
  rewrite <- list_fmap_compose in Hcell. rewrite list_lookup_fmap in Hcell.
  destruct (st0 !! i) as [v|] eqn:Hv; [| discriminate]. simpl in Hcell.
  injection Hcell as <-. rewrite status_cell_idemp in Hfin.
  apply (Hcells progress i (status_cell v)); [exact Hsel3 | | exact Hfin].
  now rewrite list_lookup_fmap, Hv.
Qed.

End Editors.

(** ** Save Items, when it fails *)

Section SaveItems.
Context `{Pandas}.

Lemma quantity_cell_cases v :
  (finite_quantity v /\ exists v', quantity_cell v = Ok v')
  \/ (~ finite_quantity v
      /\ quantity_cell v
         = Raise (ValueError "Cannot convert non-finite values (NA or inf) to integer")).
Proof.
  destruct (to_numeric v) as [| | |[m e|neg]|] eqn:Hv.
  all: try (left; assert (Hfin : finite_quantity v)
              by (intros neg'; rewrite Hv; discriminate);
            split; [exact Hfin | now apply quantity_cell_finite]).
  right. split.
  - intros Hfin. now apply (Hfin neg).
  - unfold quantity_cell. rewrite Hv. reflexivity.
Qed.

Lemma traverse_quantity_cell_raises q :
  ~ Forall finite_quantity q ->
  traverse quantity_cell q
  = Raise (ValueError "Cannot convert non-finite values (NA or inf) to integer").
Proof.
  induction q as [|v q IH]; intros Hq; [now destruct Hq |]. simpl.
  destruct (quantity_cell_cases v) as [[Hfin [v' ->]]|[_ ->]]; [| reflexivity].
  rewrite IH; [reflexivity |]. intros Hall. apply Hq. now constructor.
Qed.

(** X12. Save Items Table never lets an exception of its conversion or of
    the write through: without a Quantity column it shows the [KeyError],
    with an infinite Quantity it shows the conversion's error, and in both
    cases the frame at hand and the database are as before; when the write
    is refused it shows the database's error, the database is as before and
    the Quantity column at hand stays converted. *)
Theorem save_items_table_failures (s : state) :
  let failed text :=
    (Ok tt, State (db s) (fault s) (df s)
              (shown s ++ [Error ("Error saving items table: " +:+ text)])) in
  ("Quantity" ∉ labels (df s) -> save_items_table s = failed "'Quantity'")
  /\ (forall q, select "Quantity" (df s) = [("Quantity", q)] ->
      ~ Forall finite_quantity q ->
      save_items_table s
      = failed "Cannot convert non-finite values (NA or inf) to integer")
  /\ (forall q err, select "Quantity" (df s) = [("Quantity", q)] ->
      Forall finite_quantity q ->
      fault s = Some err ->
      exists q',
        traverse quantity_cell q = Ok q'
        /\ save_items_table s
           = (Ok tt, State (db s) (fault s) (setitem "Quantity" q' (df s))
                       (shown s ++ [Error ("Error saving items table: " +:+ err)]))).
Proof.
  intros failed. subst failed. split; [| split].
  - intros Hout. unfold save_items_table. run.
    now rewrite coerce_quantity_missing.
  - intros q Hq Hinf. unfold save_items_table, coerce_quantity, convert_series, getitem. run.
    rewrite Hq. simpl. now rewrite traverse_quantity_cell_raises.
  - intros q err Hq Hfin Hfault.
    destruct (traverse_total quantity_cell q) as [q' Hq'].
    { eapply Forall_impl; [exact Hfin |]. intros v. apply quantity_cell_finite. }
    exists q'. split; [exact Hq' |].
    unfold save_items_table. run.
    rewrite (coerce_quantity_eq _ q q' Hq Hq'). simpl. rewrite Hfault. reflexivity.
Qed.

End SaveItems.

(** ** Which table a handler writes *)

Section Tables.
Context `{Pandas}.

Lemma try_save_timeline_db (pre : string) (note : string -> message) (s : state) :
  db (try_except (g ← get_df; save_timeline_data g) (fun e => show (note e)) s).2 = db s
  \/ db (try_except (g ← get_df; save_timeline_data g) (fun e => show (note e)) s).2
     = <["Contrcution_Timeline" := Table (nrows (df s)) (columns (df s))]> (db s).
Proof. run. destruct (fault s); simpl; auto. Qed.

Lemma then_try_save_timeline_db (m : M unit) (note : string -> message) (s : state) :
  db (m s).2 = db s ->
  forall name, name <> "Contrcution_Timeline" ->
  db ((m;; try_except (g ← get_df; save_timeline_data g) (fun e => show (note e))) s).2 !! name
  = db s !! name.
Proof.
  intros Hm name Hname. unfold mbind at 1. unfold M_bind at 1.
  destruct (m s) as [[[]|e] s1]; simpl in *; [| now rewrite Hm].
  destruct (try_save_timeline_db "" note s1) as [-> | ->]; [now rewrite Hm |].
  rewrite lookup_insert_ne by congruence. now rewrite Hm.
Qed.

(** X13. The four handlers of the main timeline change no table of the
    database but the timeline's, Save Items Table none but the Items table,
    and the two loaders, the Items frame of lines 216-224 and the export
    write nothing at all. *)
Theorem handlers_write_one_table (s : state) (name : string) :
  (name <> "Contrcution_Timeline" ->
   (forall delete_index, db (delete_row_main delete_index s).2 !! name = db s !! name)
   /\ (forall new_col_name new_col_type,
         db (add_column_main new_col_name new_col_type s).2 !! name = db s !! name)
   /\ (forall col_to_delete, db (delete_column_main col_to_delete s).2 !! name = db s !! name)
   /\ (forall edited save_pressed,
         db (timeline_editor edited save_pressed s).2 !! name = db s !! name))
  /\ (name <> "Items_Order" -> db (save_items_table s).2 !! name = db s !! name)
  /\ db (load_timeline_data s).2 = db s
  /\ db (load_items_data s).2 = db s
  /\ db (items_frame s).2 = db s
  /\ db (export_csv s).2 = db s.
Proof.
  split; [intros Hname; repeat split |].
  - intros delete_index. unfold delete_row_main, int.
    destruct (Py.isdigit delete_index); [| reflexivity].
    unfold mbind at 1. unfold M_bind at 1. unfold lift at 1.
    destruct (Py.int_of_digits delete_index) as [idx|msg]; [| reflexivity].
    unfold mbind at 1. unfold M_bind at 1. unfold get_df at 1.
    case_bool_decide; [| reflexivity].
    apply (then_try_save_timeline_db (put_df _)); auto.
  - intros new_col_name new_col_type. unfold add_column_main.
    unfold mbind at 1. unfold M_bind at 1. unfold get_df at 1.
    case_bool_decide; [| reflexivity].
    apply then_try_save_timeline_db; [| exact Hname].
    repeat (case_decide; [reflexivity |]). reflexivity.
  - intros col_to_delete. unfold delete_column_main.
    unfold mbind at 1. unfold M_bind at 1. unfold get_df at 1.
    case_bool_decide; [| reflexivity].
    apply (then_try_save_timeline_db (put_df _)); auto.
  - intros edited [|]; [| reflexivity].
    unfold timeline_editor, data_editor, save_updates_main. run.
    destruct (force_finished_progress (coerce_edited_status edited)); simpl; [| reflexivity].
    destruct (fault s); simpl; [reflexivity |].
    now rewrite lookup_insert_ne by congruence.
  - split; [intros Hname |].
    + unfold save_items_table. run.
      destruct (coerce_quantity (df s)) as [g|[cls msg|]]; simpl; try reflexivity.
      destruct (fault s); simpl; [reflexivity |].
      now rewrite lookup_insert_ne by congruence.
    + assert (Hload : db (load_timeline_data s).2 = db s).
      { destruct (load_timeline_data s) as [r s'] eqn:Hl.
        now rewrite (load_timeline_data_state s r s' Hl). }
      assert (Hitems : db (load_items_data s).2 = db s).
      { destruct (load_items_data s) as [r s'] eqn:Hl.
        now rewrite (load_items_data_state s r s' Hl). }
      repeat split; auto.
      unfold items_frame, lift, mbind, M_bind.
      destruct (load_items_data s) as [[g|e] s']; exact Hitems.
Qed.

End Tables.

(** ** What a load returns, and saving it back *)

Section Loaded.
Context `{Pandas}.

Lemma coerce_datetime_if_inv c g g' :
  (if decide (c ∈ labels g) then coerce_datetime c g else Ok g) = Ok g' ->
  g' = map_column c to_datetime g.
Proof.
  destruct (decide (c ∈ labels g)) as [Hin|Hout].
  - destruct (select c g) as [|[l x] [|]] eqn:Hs.
    + unfold coerce_datetime, convert_series, getitem. rewrite Hs. discriminate.
    + pose proof (select_single _ _ _ _ Hs) as ->.
      rewrite (coerce_datetime_ok c x g Hs). now intros [= <-].
    + unfold coerce_datetime, convert_series, getitem. rewrite Hs. discriminate.
  - intros [= <-]. unfold map_column. rewrite rebuild_absent by exact Hout. now destruct g.
Qed.

Lemma load_timeline_data_inv (s s' : state) (g : frame) :
  load_timeline_data s = (Ok g, s') ->
  s' = s /\ fault s = None
  /\ exists t, db s !! "Contrcution_Timeline" = Some t
     /\ "Status" ∈ labels (source_frame timeline_mapping t)
     /\ g = Frame (seq 0 (trows t))
              (timeline_columns (columns (source_frame timeline_mapping t))).
Proof.
  intros Hload. pose proof (load_timeline_data_state _ _ _ Hload) as ->.
  split; [reflexivity |]. revert Hload.
  unfold load_timeline_data, read_sql, lift, mbind, mret, M_bind, M_ret.
  destruct (fault s); [discriminate |]. split; [reflexivity |].
  destruct (db s !! "Contrcution_Timeline") as [t|]; [| discriminate].
  exists t. split; [reflexivity |]. revert Hload.
  fold (source_frame timeline_mapping t).
  destruct (if decide ("Start Date" ∈ labels (source_frame timeline_mapping t)) then _ else _)
    as [g1|] eqn:H1; [| discriminate].
  apply coerce_datetime_if_inv in H1 as ->.
  destruct (if decide ("End Date" ∈ labels _) then _ else _) as [g2|] eqn:H2; [| discriminate].
  apply coerce_datetime_if_inv in H2 as ->.
  destruct (coerce_status _) as [g3|] eqn:H3; [| discriminate].
  apply convert_column_inv in H3 as [Hstatus ->].
  rewrite !labels_map_column in Hstatus. intros [= <-]. split; [exact Hstatus | reflexivity].
Qed.

Lemma timeline_columns_are_typed cols : typed_timeline (timeline_columns cols).
Proof.
  assert (Hdate : forall y : list value, Forall is_timestamp (to_datetime <$> y)).
  { intros y. apply Forall_fmap, Forall_forall. intros v _. apply to_datetime_cases. }
  unfold typed_timeline, timeline_columns. repeat split.
  - apply typed_as_rebuild_same. intros y. apply Forall_fmap, Forall_forall.
    intros v _. apply status_cell_text.
  - do 2 (apply typed_as_rebuild_other; [discriminate |]). now apply typed_as_rebuild_same.
  - apply typed_as_rebuild_other; [discriminate |]. now apply typed_as_rebuild_same.
Qed.

(** X14. Every frame a loader returns has the row labels 0..n-1 and typed
    columns: in the timeline every Status cell is text and every Start Date
    and End Date cell a timestamp or NaT; in the Items table the four text
    columns hold text and Quantity integers. *)
Theorem loaded_frames_are_typed (s s' : state) (g : frame) :
  (load_timeline_data s = (Ok g, s') ->
   index g = seq 0 (nrows g) /\ typed_timeline (columns g))
  /\ (load_items_data s = (Ok g, s') ->
      index g = seq 0 (nrows g) /\ typed_items (columns g)).
Proof.
  split; intros Hload.
  - destruct (load_timeline_data_inv _ _ _ Hload) as (_ & _ & t & _ & _ & ->).
    unfold nrows. simpl. rewrite length_seq.
    split; [reflexivity | apply timeline_columns_are_typed].
  - destruct (load_items_data_inv _ _ _ Hload) as (_ & _ & t & _ & Hg).
    destruct (coerce_items_inv _ _ Hg) as (_ & q & q' & _ & Hq' & ->).
    unfold nrows. simpl. rewrite length_seq.
    split; [reflexivity |].
    apply items_columns_are_typed. now apply traverse_quantity_cell_integers with q.
Qed.

(** X15. Saving a loaded frame as it is loses nothing: when its labels are
    plain (and, for the timeline, distinct) and the database accepts the
    write and returns the columns as they were written, the next run's load
    returns the very same frame. *)
Theorem loaded_frame_survives_save (s s' page : state) (g : frame) :
  fault page = None ->
  returned_as_written (columns g) ->
  (load_timeline_data s = (Ok g, s') ->
   Forall (plain_label timeline_mapping) (labels g) ->
   NoDup (labels g) ->
   exists next,
     save_timeline_data g page = (Raise RerunException, next)
     /\ load_timeline_data next = (Ok g, next))
  /\ (load_items_data s = (Ok g, s') ->
      Forall (plain_label items_mapping) (labels g) ->
      exists next,
        save_items_data g page = (Raise RerunException, next)
        /\ load_items_data next = (Ok g, next)).
Proof.
  intros Hfault Hback. split; intros Hload Hplain.
  - intros Hnd.
    destruct (load_timeline_data_inv _ _ _ Hload) as (_ & _ & t & _ & Hstatus & Hg).
    assert (Hlabels : labels g = labels (source_frame timeline_mapping t)).
    { rewrite Hg. unfold labels. simpl. apply labels_timeline_columns. }
    assert (Hsame : Frame (seq 0 (nrows g)) (timeline_columns (columns g)) = g).
    { rewrite timeline_columns_typed
        by (rewrite Hg; apply timeline_columns_are_typed).
      rewrite Hg. unfold nrows. simpl. now rewrite length_seq. }
    destruct (load_after_save (db page) g (df page)
                (shown page ++ [Success "Timeline data successfully saved!"])
                Hback Hplain Hnd) as [Hok _].
    rewrite Hsame in Hok.
    eexists. split; [| apply Hok; now rewrite Hlabels].
    run. now rewrite Hfault.
  - destruct (load_items_data_inv _ _ _ Hload) as (_ & _ & t & _ & Hg).
    pose proof (coerce_items_fixed _ _ Hg) as Hfixed.
    assert (Hsame : Frame (seq 0 (nrows g)) (columns g) = g).
    { destruct (coerce_items_inv _ _ Hg) as (_ & q & q' & _ & _ & ->).
      unfold nrows. simpl. now rewrite length_seq. }
    eexists. split; [run; now rewrite Hfault |].
    rewrite (load_items_data_eq _ (Table (nrows g) (columns g)));
      [| reflexivity | simpl; now rewrite lookup_insert_eq].
    rewrite (source_frame_plain items_mapping g Hback Hplain), Hsame, Hfixed. reflexivity.
Qed.

End Loaded.

(** * The script on the sample pages *)

(** ** The timeline *)

Example force_finished_progress_sample :
  force_finished_progress edited_timeline
  = Ok (Frame [0; 1; 2]%nat
          [("Task", [VStr "Pour slab"; VStr "Frame walls"; VStr "Roof"]);
           ("Status", [VStr "FINISHED"; VStr "In Progress"; VStr "finished"]);
           ("Progress", [VInt 100; VInt 20; VInt 100])]).
Proof. vm_compute. reflexivity. Qed.

Lemma finished_rows_get_progress_100_witness :
  exists g',
    force_finished_progress edited_timeline = Ok g'
    /\ index g' = index edited_timeline
    /\ labels g' = labels edited_timeline
    /\ (forall c, c <> "Progress" -> select c g' = select c edited_timeline)
    /\ forall i st,
         [VStr "FINISHED"; VStr "In Progress"; VStr "finished"] !! i = Some st ->
         cell "Progress" i g'
         = if is_finished st then Some (VInt 100)
           else [VInt 40; VInt 20; VNull NaN] !! i.
Proof.
  apply (finished_rows_get_progress_100 edited_timeline
           [VStr "FINISHED"; VStr "In Progress"; VStr "finished"]
           [VInt 40; VInt 20; VNull NaN]);
    [repeat constructor | reflexivity | reflexivity].
Defined.

Lemma delete_row_invalid_index_witness :
  exists text,
    delete_row_main "3" (page ∅ edited_timeline)
    = (Ok tt, State ∅ None edited_timeline [SidebarError text]).
Proof.
  apply (proj1 (delete_row_invalid_index (page ∅ edited_timeline) "3")).
  right. exists 3. split; [vm_compute; reflexivity | vm_compute; discriminate].
Defined.

(** The Arabic-Indic three is the index 3, here beyond the last row. *)
Example delete_row_arabic_three :
  delete_row_main arabic_three (page ∅ edited_timeline)
  = (Ok tt, State ∅ None edited_timeline [SidebarError "Invalid index."]).
Proof. vm_compute. reflexivity. Qed.

(** More digits than [int] converts. *)
Example delete_row_too_many_digits :
  exists msg,
    delete_row_main (Utf8.concat (replicate 4301 "1")) (page ∅ edited_timeline)
    = (Raise (ValueError msg), page ∅ edited_timeline).
Proof. eexists. vm_compute. reflexivity. Qed.

Example delete_row_minus_one :
  delete_row_main "-1" (page ∅ edited_timeline)
  = (Ok tt, State ∅ None edited_timeline
              [SidebarError "Please enter a valid integer index."]).
Proof. vm_compute. reflexivity. Qed.

Example delete_row_valid :
  (delete_row_main "1" (page ∅ edited_timeline)).1 = Raise RerunException
  /\ df (delete_row_main "1" (page ∅ edited_timeline)).2
     = Frame [0; 2]%nat
         [("Task", [VStr "Pour slab"; VStr "Roof"]);
          ("Status", [VStr "FINISHED"; VStr "finished"]);
          ("Progress", [VInt 40; VNull NaN])].
Proof. split; vm_compute; reflexivity. Qed.

Lemma add_column_appends_zero_column_witness :
  exists r s',
    add_column_main "Crew" "integer" (page ∅ edited_timeline) = (r, s')
    /\ df s' = Frame [0; 1; 2]%nat
                 (columns edited_timeline ++ [("Crew", [VInt 0; VInt 0; VInt 0])]).
Proof.
  apply (proj2 (add_column_appends_zero_column (page ∅ edited_timeline) "Crew" KInteger)).
  split; [discriminate | by_computation].
Defined.

Example add_column_taken_name :
  add_column_main "Status" "float" (page ∅ edited_timeline)
  = (Ok tt, State ∅ None edited_timeline
              [SidebarWarning "Column already exists or invalid name."]).
Proof. vm_compute. reflexivity. Qed.

Lemma failed_save_skips_reload_witness :
  @timeline_editor sample_pandas finished_at_50 true
    (State ∅ (Some "connection lost") no_frame [])
  = (Ok tt,
     State ∅ (Some "connection lost") finished_at_100
       [DataEditor finished_at_50;
        Error "Error saving main timeline: connection lost"]).
Proof.
  apply (proj1 (@failed_save_skips_reload sample_pandas
                  (State ∅ (Some "connection lost") no_frame []) finished_at_50)
           "connection lost" finished_at_100); reflexivity.
Defined.

Example save_updates_retry :
  @timeline_editor sample_pandas finished_at_50 true (State ∅ None no_frame [])
  = (Raise RerunException,
     State {[ "Contrcution_Timeline" := Table 1 (columns finished_at_100) ]} None
       finished_at_100
       [DataEditor finished_at_50; Success "Timeline data successfully saved!"]).
Proof. vm_compute. reflexivity. Qed.

(** C3. The loader turns a stored Status that is NULL into the text "None",
    not into "Not Started": [astype(str)] has already made text of the
    missing value when [fillna] looks for one. *)
Lemma load_timeline_null_status :
  (@load_timeline_data sample_pandas (page status_only no_frame)).1
  = Ok (Frame [0; 1]%nat [("Status", [VStr "Delayed"; VStr "None"])]).
Proof. vm_compute. reflexivity. Qed.

(** The timeline loader returns the columns the table has and no other:
    Activity is not there after the load. *)
Lemma load_timeline_creates_no_column :
  ~ (forall g,
       (@load_timeline_data sample_pandas (page partial_timeline no_frame)).1 = Ok g ->
       Forall (fun c => c ∈ labels g) timeline_display_columns).
Proof.
  intros Hall.
  specialize (Hall (Frame [0]%nat [("Task", [VStr "Roof"]); ("Status", [VStr "Delayed"]);
                                   ("Progress", [VInt 10])])).
  apply Forall_inv in Hall; [| vm_compute; reflexivity].
  revert Hall. by_computation.
Qed.

(** ** The Items table *)

Example load_items_sample :
  @load_items_data sample_pandas (page stored_items no_frame)
  = (Ok loaded_items, page stored_items no_frame).
Proof. vm_compute. reflexivity. Qed.

Lemma loaded_quantity_is_integer_witness :
  exists t q q',
    db (page stored_items no_frame) !! "Items_Order" = Some t
    /\ select "Quantity" (@source_frame sample_pandas items_mapping t) = [("Quantity", q)]
    /\ select "Quantity" loaded_items = [("Quantity", q')]
    /\ Forall2 coerced q q'.
Proof.
  apply (@loaded_quantity_is_integer sample_pandas
           (page stored_items no_frame) (page stored_items no_frame) loaded_items).
  vm_compute. reflexivity.
Defined.

(** The stored text "-2" is loaded as the integer -2. *)
Lemma loaded_quantity_can_be_negative :
  ~ (forall g,
       (@load_items_data sample_pandas (page stored_items no_frame)).1 = Ok g ->
       forall i v, cell "Quantity" i g = Some v -> exists z, v = VInt z /\ 0 <= z).
Proof.
  intros Hall.
  destruct (Hall loaded_items (f_equal fst load_items_sample) 2%nat (VInt (-2)) eq_refl)
    as (z & [= <-] & Hz).
  lia.
Qed.

Lemma load_returns_source_columns_witness :
  exists g q',
    @load_items_data sample_pandas (page stored_items no_frame)
    = (Ok g, page stored_items no_frame)
    /\ index g = [0; 1; 2; 3]%nat
    /\ labels g = ["Item"; "Quantity"; "Order Status"; "Delivery Status"; "Notes"]
    /\ columns g
       = @items_columns sample_pandas q'
           [("Item", [VStr "Cement"; VStr "Nails"; VStr "Sand"; VStr "Tiles"]);
            ("Quantity", [VStr "5"; VStr "abc"; VStr "-2"; VStr ""]);
            ("Order Status", [VStr "Ordered"; VStr "Not Ordered"; VStr "Ordered"; VNull PyNone]);
            ("Delivery Status", [VStr "Delivered"; VStr "Delayed"; VStr "Delayed"; VNull PyNone]);
            ("Notes", [VStr ""; VStr "urgent"; VNull PyNone; VNull PyNone])]
    /\ Forall2 coerced [VStr "5"; VStr "abc"; VStr "-2"; VStr ""] q'.
Proof.
  refine (proj1 (proj2 (@load_returns_source_columns sample_pandas
                          (page stored_items no_frame) items_table eq_refl))
            [VStr "5"; VStr "abc"; VStr "-2"; VStr ""] _ _ _ _).
  - vm_compute. reflexivity.
  - by_computation.
  - vm_compute. reflexivity.
  - repeat constructor; intros neg; vm_compute; discriminate.
Defined.

Example items_frame_missing_column :
  (@items_frame sample_pandas (page items_without_notes no_frame)).1
  = Raise (KeyError "Notes").
Proof. vm_compute. reflexivity. Qed.

(** ** Round trips *)

Lemma save_then_load_roundtrip_witness :
  exists s1 g',
    save_timeline_data edited_timeline (page ∅ edited_timeline)
    = (Raise RerunException, s1)
    /\ @load_timeline_data sample_pandas s1 = (Ok g', s1)
    /\ nrows g' = 3%nat
    /\ labels g' = ["Task"; "Status"; "Progress"]
    /\ columns g' = @timeline_columns sample_pandas (columns edited_timeline)
    /\ (typed_timeline (columns edited_timeline) -> columns g' = columns edited_timeline).
Proof.
  refine (proj1 (@save_then_load_roundtrip sample_pandas
                   (page ∅ edited_timeline) edited_timeline eq_refl _) _ _ _);
    by_computation.
Defined.

Example roundtrip_sample :
  (@load_timeline_data sample_pandas
     (save_timeline_data edited_timeline (page ∅ edited_timeline)).2).1
  = Ok edited_timeline.
Proof. vm_compute. reflexivity. Qed.

Example add_column_keeps_blank :
  df (add_column_main " x" "string"
        (page ∅ (Frame [0]%nat [("Status", [VStr "Delayed"])]))).2 = spaced.
Proof. vm_compute. reflexivity. Qed.

(** Saved as " x", the column is loaded as "x": the labels after the round
    trip are not the labels before it. *)
Lemma roundtrip_trims_column_label :
  ~ (forall s1 g',
       save_timeline_data spaced (page ∅ spaced) = (Raise RerunException, s1) ->
       @load_timeline_data sample_pandas s1 = (Ok g', s1) ->
       forall l, l ∈ labels g' <-> l ∈ labels spaced).
Proof.
  intros Hall.
  set (s1 := (save_timeline_data spaced (page ∅ spaced)).2).
  set (g' := Frame [0]%nat [("Status", [VStr "Delayed"]); ("x", [VStr EmptyString])]).
  assert (Hsave : save_timeline_data spaced (page ∅ spaced) = (Raise RerunException, s1))
    by (vm_compute; reflexivity).
  assert (Hload : @load_timeline_data sample_pandas s1 = (Ok g', s1))
    by (vm_compute; reflexivity).
  destruct (Hall s1 g' Hsave Hload "x") as [Hx _].
  revert Hx. by_computation.
Qed.

(** ** Export *)

Example to_csv_sample :
  @to_csv sample_pandas items_grid
  = line "Item,Quantity,Order Status,Delivery Status,Notes"
    +:+ line "Cement,10,Ordered,Delivered,"
    +:+ line "Nails,0,Not Ordered,Not Delivered,urgent".
Proof. vm_compute. reflexivity. Qed.


(** ** Save Items *)

Lemma save_items_persists_integer_quantities_witness :
  (@save_items_table sample_pandas (page ∅ edited_items)).1 = Raise RerunException.
Proof.
  refine (proj1 (@save_items_persists_integer_quantities sample_pandas
                   (page ∅ edited_items))
            [VStr "12"; VNull PyNone; VFloat (Finite 75 (-1))] _ _ _ _).
  - vm_compute. reflexivity.
  - repeat constructor; intros neg; vm_compute; discriminate.
  - by_computation.
  - reflexivity.
Defined.

Example save_items_sample :
  db (@save_items_table sample_pandas (page ∅ edited_items)).2 !! "Items_Order"
  = Some (Table 3
            [("Item", [VStr "Cement"; VStr "Nails"; VStr "Sand"]);
             ("Quantity", [VInt 12; VInt 0; VInt 7]);
             ("Order Status", [VStr "Ordered"; VStr "Not Ordered"; VStr "Ordered"]);
             ("Delivery Status", [VStr "Delivered"; VStr "Delayed"; VStr "Delayed"]);
             ("Notes", [VStr EmptyString; VStr "urgent"; VStr EmptyString])]).
Proof. vm_compute. reflexivity. Qed.
(** ** Sample runs of the handlers and the loaders *)

Lemma load_items_data_missing_column_witness :
  @load_items_data sample_pandas (page items_without_notes no_frame)
  = (Raise (KeyError "Notes"), page items_without_notes no_frame).
Proof.
  apply (@load_items_data_missing_column sample_pandas
           (page items_without_notes no_frame) items_table_without_notes
           ["Item"; "Quantity"; "Order Status"; "Delivery Status"] [] "Notes").
  - reflexivity.
  - vm_compute. reflexivity.
  - reflexivity.
  - by_computation.
  - by_computation.
  - intros _. exists [VInt 3]. split; [vm_compute; reflexivity |].
    repeat constructor. intros neg. discriminate.
Defined.

Lemma delete_row_valid_index_witness :
  exists r s',
    delete_row_main "1" (page ∅ edited_timeline) = (r, s')
    /\ df s' = Frame [0; 2]%nat
                 [("Task", [VStr "Pour slab"; VStr "Roof"]);
                  ("Status", [VStr "FINISHED"; VStr "finished"]);
                  ("Progress", [VInt 40; VNull NaN])].
Proof.
  destruct (delete_row_valid_index (page ∅ edited_timeline) "1" 1)
    as (r & s' & Hrun & Hdf & _).
  - by_computation.
  - by_computation.
  - vm_compute. reflexivity.
  - vm_compute. reflexivity.
  - vm_compute. reflexivity.
  - exists r, s'. split; [exact Hrun | exact Hdf].
Defined.

Lemma delete_row_then_load_witness :
  exists s',
    delete_row_main "1" (page ∅ edited_timeline) = (Raise RerunException, s')
    /\ @load_timeline_data sample_pandas s'
       = (Ok (Frame [0; 1]%nat
                [("Task", [VStr "Pour slab"; VStr "Roof"]);
                 ("Status", [VStr "FINISHED"; VStr "finished"]);
                 ("Progress", [VInt 40; VNull NaN])]),
          s').
Proof.
  refine (@delete_row_then_load sample_pandas (page ∅ edited_timeline) "1" 1
            eq_refl _ _ _ _ _ _ _ _ _); by_computation.
Defined.

Lemma delete_column_then_load_witness :
  exists s',
    delete_column_main "Status" (page ∅ edited_timeline) = (Raise RerunException, s')
    /\ ("Status" = "Status" ->
        @load_timeline_data sample_pandas s' = (Raise (KeyError "Status"), s'))
    /\ ("Status" <> "Status" ->
        @load_timeline_data sample_pandas s'
        = (Ok (Frame (seq 0 (nrows edited_timeline))
                 (@timeline_columns sample_pandas
                    (filter (fun col : column => col.1 <> "Status")
                       (columns edited_timeline)))),
           s')).
Proof.
  refine (@delete_column_then_load sample_pandas (page ∅ edited_timeline) "Status"
            eq_refl _ _ _ _ _ _); by_computation.
Defined.

Lemma add_column_then_load_witness :
  exists s' g',
    add_column_main "Crew" "integer" (page ∅ edited_timeline) = (Raise RerunException, s')
    /\ @load_timeline_data sample_pandas s' = (Ok g', s')
    /\ index g' = [0; 1; 2]%nat
    /\ columns g'
       = (@timeline_columns sample_pandas (columns edited_timeline)
          ++ [("Crew", [VInt 0; VInt 0; VInt 0])])%list.
Proof.
  refine (@add_column_then_load sample_pandas (page ∅ edited_timeline) "Crew" KInteger
            eq_refl _ _ _ _ _ _ _ _); by_computation.
Defined.

Lemma save_updates_without_status_witness :
  @timeline_editor sample_pandas timeline_without_status true (page ∅ no_frame)
  = (Raise (KeyError "Status"),
     State ∅ None timeline_without_status [DataEditor timeline_without_status]).
Proof.
  apply (@save_updates_without_status sample_pandas (page ∅ no_frame)
           timeline_without_status).
  by_computation.
Defined.

Lemma saved_finished_rows_reload_at_100_witness :
  exists s' g',
    @timeline_editor sample_pandas edited_timeline true (page ∅ no_frame)
    = (Raise RerunException, s')
    /\ @load_timeline_data sample_pandas s' = (Ok g', s')
    /\ nrows g' = 3%nat
    /\ "Progress" ∈ labels g'
    /\ forall i st,
         cell "Status" i g' = Some st ->
         is_finished st = true ->
         cell "Progress" i g' = Some (VInt 100).
Proof.
  refine (@saved_finished_rows_reload_at_100 sample_pandas (page ∅ no_frame)
            edited_timeline eq_refl _ _ _ _ _ _); [| by_computation ..].
  intros g' Hg'. vm_compute in Hg'. injection Hg' as <-. by_computation.
Defined.

Example save_updates_reload_sample :
  forall s',
    (@timeline_editor sample_pandas edited_timeline true (page ∅ no_frame)).2 = s' ->
    (@load_timeline_data sample_pandas s').1
    = Ok (Frame [0; 1; 2]%nat
            [("Task", [VStr "Pour slab"; VStr "Frame walls"; VStr "Roof"]);
             ("Status", [VStr "FINISHED"; VStr "In Progress"; VStr "finished"]);
             ("Progress", [VInt 100; VInt 20; VInt 100])]).
Proof. intros s' <-. vm_compute. reflexivity. Qed.

Lemma loaded_frame_survives_save_witness :
  exists next,
    save_timeline_data loaded_partial_timeline (page ∅ no_frame)
    = (Raise RerunException, next)
    /\ @load_timeline_data sample_pandas next = (Ok loaded_partial_timeline, next).
Proof.
  refine (proj1 (@loaded_frame_survives_save sample_pandas
                   (page partial_timeline no_frame) (page partial_timeline no_frame)
                   (page ∅ no_frame) loaded_partial_timeline eq_refl _) _ _ _).
  - by_computation.
  - vm_compute. reflexivity.
  - by_computation.
  - by_computation.
Defined.

Example save_items_table_no_quantity :
  @save_items_table sample_pandas (page ∅ timeline_without_status)
  = (Ok tt,
     State ∅ None timeline_without_status
       [Error "Error saving items table: 'Quantity'"]).
Proof. vm_compute. reflexivity. Qed.

Example save_items_table_infinite_quantity :
  @save_items_table sample_pandas (page ∅ infinite_quantity)
  = (Ok tt,
     State ∅ None infinite_quantity
       [Error ("Error saving items table: "
               +:+ "Cannot convert non-finite values (NA or inf) to integer")]).
Proof. vm_compute. reflexivity. Qed.

(** ** What the sample database does not return as written *)

(** A timestamp comes back with its microseconds only. *)
Example reload_cuts_nanoseconds :
  (@load_timeline_data sample_pandas
     (save_timeline_data dated_timeline (page ∅ dated_timeline)).2).1
  = Ok (Frame [0]%nat [("Status", [VStr "Delayed"]); ("Start Date", [VDate 20240000])]).
Proof. vm_compute. reflexivity. Qed.

(** A new datetime column holds NaT when it is written and [None] when it is
    read. *)
Example reload_of_datetime_column :
  (@load_timeline_data sample_pandas
     (add_column_main "Due" "datetime"
        (page ∅ (Frame [0]%nat [("Status", [VStr "Delayed"])]))).2).1
  = Ok (Frame [0]%nat [("Status", [VStr "Delayed"]); ("Due", [VNull PyNone])]).
Proof. vm_compute. reflexivity. Qed.

(** The 100 of line 204 in a column of text is stored as text. *)
Example reload_of_text_progress :
  (@load_timeline_data sample_pandas
     (@timeline_editor sample_pandas text_progress true (page ∅ no_frame)).2).1
  = Ok (Frame [0; 1]%nat
          [("Status", [VStr "Finished"; VStr "Delayed"]);
           ("Progress", [VStr "100"; VStr "x"])]).
Proof. vm_compute. reflexivity. Qed.
